(** * ATENA: bot supervisor, HTTP control plane and command execution

    A shallow embedding of [main.py] and [manager.py].  Python objects are
    records, mutation is explicit state passing in a small state-and-exception
    monad, and everything the two files import but do not define (the clock,
    the JSON codec, the subprocess layer, the analysis collaborators, the log
    sink) is either an argument of the embedded function or a documented
    model of the library it comes from. *)

From Stdlib Require Import ZArith List String Ascii Bool Lia.
From Stdlib Require Import Decimal DecimalString SpecFloat.
From stdpp Require Import base gmap strings.
Import ListNotations.

Local Open Scope Z_scope.
Local Open Scope string_scope.
Set Warnings "-register-all".

(* ====================================================================== *)
(** ** Python values, exceptions and the effect monad *)
(* ====================================================================== *)

Module Py.

(** A command handed to [subprocess.run]: a string when [shell=True], an
    argument vector otherwise. *)
Inductive command : Type :=
| Shell (line : string)
| Argv (args : list string).

(** The exceptions the two modules raise, catch or let through.  All of
    them are instances of Python's [Exception]. *)
Inductive exception : Type :=
| TimeoutExpired (cmd : command) (timeout : Z)
| CalledProcessError (cmd : command) (returncode : Z) (output stderr : string)
| JSONDecodeError (msg : string)
| KeyError (key : string)
| AttributeError (msg : string)
| FileNotFoundError (msg : string)
| TimeoutError (msg : string)
| ValueError (msg : string)
| UnicodeDecodeError (msg : string)
| OtherException (class_name msg : string).

(** [str(n)] for an [int]. *)
Definition str_int (n : Z) : string := NilZero.string_of_int (Z.to_int n).

(** [repr(s)] for a string without quotes, backslashes or control
    characters. *)
Definition repr_str (s : string) : string := "'" ++ s ++ "'".

Definition str_command (c : command) : string :=
  match c with
  | Shell line => line
  | Argv args => "[" ++ String.concat ", " (map repr_str args) ++ "]"
  end.

(** [str(e)]. *)
Definition str_exc (e : exception) : string :=
  match e with
  | TimeoutExpired cmd t =>
      "Command '" ++ str_command cmd ++ "' timed out after " ++ str_int t ++ " seconds"
  | CalledProcessError cmd rc _ _ =>
      "Command '" ++ str_command cmd ++ "' returned non-zero exit status "
        ++ str_int rc ++ "."
  | JSONDecodeError msg => msg
  | KeyError key => repr_str key
  | AttributeError msg => msg
  | FileNotFoundError msg => msg
  | TimeoutError msg => msg
  | ValueError msg => msg
  | UnicodeDecodeError msg => msg
  | OtherException _ msg => msg
  end.

(** How a call ends: it returns a value or an exception leaves it. *)
Inductive result (A : Type) : Type :=
| Return (a : A)
| Raise (e : exception).
Arguments Return {A} a.
Arguments Raise {A} e.

(** Computations over a mutable state [S] that may raise.  The state
    survives a raise: Python does not roll assignments back. *)
Definition M (S A : Type) : Type := S -> result A * S.

Definition ret {S A} (a : A) : M S A := fun s => (Return a, s).

Definition raise {S A} (e : exception) : M S A := fun s => (Raise e, s).

Definition bind {S A B} (m : M S A) (k : A -> M S B) : M S B :=
  fun s =>
    match m s with
    | (Return a, s') => k a s'
    | (Raise e, s') => (Raise e, s')
    end.

Definition get {S} : M S S := fun s => (Return s, s).

Definition modify {S} (f : S -> S) : M S unit := fun s => (Return tt, f s).

(** The value of an environment call whose outcome is already known. *)
Definition lift {S A} (r : result A) : M S A := fun s => (r, s).

(** [try: m  except <handles>: handler]; an exception the clause does not
    name goes on to the caller. *)
Definition try_except {S A} (m : M S A)
    (handler : exception -> option (M S A)) : M S A :=
  fun s =>
    match m s with
    | (Return a, s') => (Return a, s')
    | (Raise e, s') =>
        match handler e with
        | Some h => h s'
        | None => (Raise e, s')
        end
    end.

(** Run [m] and keep only the state it leaves. *)
Definition exec {S A} (m : M S A) (s : S) : S := snd (m s).

(** Run [m] and keep only its outcome. *)
Definition eval {S A} (m : M S A) (s : S) : result A := fst (m s).

End Py.

Import Py.

Declare Scope py_scope.
Delimit Scope py_scope with py.
Notation "x <- m ;; k" := (bind m (fun x => k))
  (at level 100, m at next level, right associativity) : py_scope.
Notation "m ;;; k" := (bind m (fun _ => k))
  (at level 100, right associativity) : py_scope.
Local Open Scope py_scope.

(* ====================================================================== *)
(** ** Values that cross the HTTP boundary *)
(* ====================================================================== *)

Module Json.

(** What [json.loads] produces and [json.dumps] consumes: [None], [bool],
    [int], [float], [str], [list] and [dict] (a [dict] keeps insertion
    order and has each key once). *)
Inductive value : Type :=
| VNone
| VBool (b : bool)
| VInt (n : Z)
| VFloat (x : spec_float)
| VStr (s : string)
| VList (items : list value)
| VDict (fields : list (string * value)).

(** Python truthiness, what [not v] and [if v] test. *)
Definition truthy (v : value) : bool :=
  match v with
  | VNone => false
  | VBool b => b
  | VInt n => negb (Z.eqb n 0)
  | VFloat x => match x with S754_zero _ => false | _ => true end
  | VStr s => negb (String.eqb s "")
  | VList items => match items with [] => false | _ => true end
  | VDict fields => match fields with [] => false | _ => true end
  end.

(** [d.get(key, default)] on the fields of a [dict]. *)
Fixpoint dict_get (fields : list (string * value)) (key : string)
    (default : value) : value :=
  match fields with
  | [] => default
  | (k, v) :: rest => if String.eqb k key then v else dict_get rest key default
  end.

(** [type(v).__name__], as it appears in an [AttributeError] message. *)
Definition type_name (v : value) : string :=
  match v with
  | VNone => "NoneType"
  | VBool _ => "bool"
  | VInt _ => "int"
  | VFloat _ => "float"
  | VStr _ => "str"
  | VList _ => "list"
  | VDict _ => "dict"
  end.

(** [data.get(key, default)] on an arbitrary value: only a [dict] has the
    method. *)
Definition value_get (data : value) (key : string) (default : value) : result value :=
  match data with
  | VDict fields => Return (dict_get fields key default)
  | _ => Raise (AttributeError
                  ("'" ++ type_name data ++ "' object has no attribute 'get'"))
  end.

End Json.

Import Json.

(* ====================================================================== *)
(** ** The log sink *)
(* ====================================================================== *)

Module Logger.

(** One line of the sink.  [Operation] and [Error] are what
    [log_operation] and [log_error] append; [Info] and [Debug] are the
    plain [logger.info] and [logger.debug] lines. *)
Inductive entry : Type :=
| Operation (name status : string) (detail : value)
| Error (operation : string) (e : exception)
| Info (msg : string)
| Debug (msg : string).

Definition sink : Type := list entry.

(** Modelled from the spec: [core.logger.log_operation] is not among the
    sources.  The spec gives the sink as process-wide and append-only, one
    structured record (operation name, status, detail) per call; the time
    stamp the sink adds is left out. *)
Definition log_operation (name status : string) (detail : value)
    (log : sink) : sink :=
  (log ++ [Operation name status detail])%list.

(** Modelled from the spec: [core.logger.log_error] is not among the
    sources.  An error is logged as one more record of the same
    append-only sink, naming the operation and carrying the exception. *)
Definition log_error (operation : string) (e : exception) (log : sink) : sink :=
  (log ++ [Error operation e])%list.

Definition info (msg : string) (log : sink) : sink := (log ++ [Info msg])%list.

Definition debug (msg : string) (log : sink) : sink := (log ++ [Debug msg])%list.

Definition is_operation (name status : string) (e : entry) : bool :=
  match e with
  | Operation n s _ => String.eqb n name && String.eqb s status
  | _ => false
  end.

(** How many records of operation [name] with status [status] the sink
    holds. *)
Definition count_operation (name status : string) (log : sink) : nat :=
  length (List.filter (is_operation name status) log).

End Logger.

Import Logger.

(* ====================================================================== *)
(** ** main.py: the bot *)
(* ====================================================================== *)

Module Main.

(** The module-level constants read from the environment. *)
Record config : Type := Config {
  PORT : Z;
  HEALTH_CHECK_INTERVAL : Z;
  BOT_NAME : string
}.

(** A naive [datetime], as microseconds on the local time line; a
    [timedelta] is a difference of two of them. *)
Definition datetime : Type := Z.
Definition timedelta : Type := Z.

(** [a / b] on two [int]s, for [a >= 0] and [b > 0]: the [float] nearest
    to the exact quotient, with ties going to the even significand.  The
    value is [m * 2 ^ e], with [m] of 53 bits; [lead] is the exponent of the
    quotient's leading bit.  The quotients of this module are far from the
    thresholds where a [float] overflows or loses bits. *)
Definition true_divide (a b : Z) : Z * Z :=
  if Z.eqb a 0 then (0, 0)
  else
    let num e := a * 2 ^ Z.max 0 (- e) in
    let den e := b * 2 ^ Z.max 0 e in
    let d := Z.log2 a - Z.log2 b in
    let lead := if Z.leb (den d) (num d) then d else d - 1 in
    let e := lead - 52 in
    let m0 := num e / den e in
    let r := num e mod den e in
    let up := Z.ltb (den e) (2 * r) || (Z.eqb (2 * r) (den e) && Z.odd m0) in
    (if up then m0 + 1 else m0, e).

(** [int(x)] for the [float] [m * 2 ^ e] with [m >= 0]: the fraction is
    cut. *)
Definition int_of_float (x : Z * Z) : Z :=
  let '(m, e) := x in
  if Z.leb 0 e then m * 2 ^ e else m / 2 ^ (- e).

(** [int(delta.total_seconds())].  [total_seconds] is the microsecond
    count divided by 10^6 as a [float]; [int] cuts its fraction, toward
    zero. *)
Definition int_total_seconds (delta : timedelta) : Z :=
  Z.sgn delta * int_of_float (true_divide (Z.abs delta) 1000000).

(** [divmod(a, b)] on [int]: floor division and its remainder. *)
Definition divmod (a b : Z) : Z * Z := (a / b, a mod b).

(** The parts of the standard library whose text this development does not
    interpret: how a [datetime] prints. *)
Record clock_format : Type := ClockFormat {
  str_datetime : datetime -> string;
  isoformat : datetime -> string
}.

(** What [CodeAnalyzer.analyze_path] yields per file, as far as the bot
    reads it. *)
Record Issue : Type := { severity : string }.
Record AnalysisResult : Type := { issues : list Issue }.

(** The two collaborators built in [__init__].  Each call returns or
    raises. *)
Record collaborators : Type := Collaborators {
  analyze_path : value -> result (list AnalysisResult);
  analyze_error : value -> result value
}.

(** The attributes of an [AtenaBot] that change. *)
Record AtenaBot : Type := mkBot {
  running : bool;
  start_time : option datetime;
  task_count : Z;
  status : string
}.

(** The server process: the global [bot] and the log sink. *)
Record world : Type := World {
  bot : AtenaBot;
  log : sink
}.

Definition set_running (b : bool) (w : world) : world :=
  World (mkBot b (start_time (bot w)) (task_count (bot w)) (status (bot w))) (log w).
Definition set_start_time (t : option datetime) (w : world) : world :=
  World (mkBot (running (bot w)) t (task_count (bot w)) (status (bot w))) (log w).
Definition set_task_count (n : Z) (w : world) : world :=
  World (mkBot (running (bot w)) (start_time (bot w)) n (status (bot w))) (log w).
Definition set_status (s : string) (w : world) : world :=
  World (mkBot (running (bot w)) (start_time (bot w)) (task_count (bot w)) s) (log w).
Definition on_log (f : sink -> sink) (w : world) : world :=
  World (bot w) (f (log w)).

(** [AtenaBot.__init__]. *)
Definition init : AtenaBot :=
  {| running := false; start_time := None; task_count := 0;
     status := "initialized" |}.

Definition init_world : world := World init [].

Section Bot.

Variable cfg : config.
Variable fmt : clock_format.
Variable collab : collaborators.

(** [AtenaBot.start]; [now] is the reading of [datetime.now()].  The
    pictograph that opens the [logger] lines of this module is left out of
    the messages. *)
Definition start (now : datetime) : M world unit :=
  modify (set_running true) ;;;
  modify (set_start_time (Some now)) ;;;
  modify (set_status "running") ;;;
  modify (on_log (log_operation "bot_start" "SUCCESS"
            (VStr (BOT_NAME cfg ++ " started at " ++ str_datetime fmt now)))) ;;;
  modify (on_log (info (BOT_NAME cfg ++ " Bot started successfully"))).

(** [AtenaBot.stop]. *)
Definition stop : M world unit :=
  modify (set_running false) ;;;
  modify (set_status "stopped") ;;;
  modify (on_log (log_operation "bot_stop" "SUCCESS"
            (VStr (BOT_NAME cfg ++ " stopped")))) ;;;
  modify (on_log (info (BOT_NAME cfg ++ " Bot stopped"))).

(** [AtenaBot.get_uptime]; [now] is the reading of [datetime.now()].
    A [datetime] is never falsy, so [not self.start_time] tests for
    [None]. *)
Definition get_uptime (now : datetime) : M world string :=
  w <- get ;;
  match start_time (bot w) with
  | None => ret "Not started"
  | Some t =>
      let delta := now - t in
      let '(hours, remainder) := divmod (int_total_seconds delta) 3600 in
      let '(minutes, seconds) := divmod remainder 60 in
      ret (str_int hours ++ "h " ++ str_int minutes ++ "m "
             ++ str_int seconds ++ "s")
  end.

(** The [dict] built by [get_status]. *)
Record BotStatus : Type := {
  st_name : string;
  st_status : string;
  st_uptime : string;
  st_tasks_processed : Z;
  st_start_time : option string;
  st_current_time : string;
  st_version : string
}.

(** [AtenaBot.get_status]; the clock is read twice, once inside
    [get_uptime] and once for [current_time]. *)
Definition get_status (now_uptime now_current : datetime) : M world BotStatus :=
  w <- get ;;
  uptime <- get_uptime now_uptime ;;
  ret {| st_name := BOT_NAME cfg;
         st_status := status (bot w);
         st_uptime := uptime;
         st_tasks_processed := task_count (bot w);
         st_start_time := option_map (isoformat fmt) (start_time (bot w));
         st_current_time := isoformat fmt now_current;
         st_version := "1.0.0" |}.

(** The [dict] built by [analyze_project]. *)
Record Summary : Type := {
  files_analyzed : Z;
  total_issues : Z;
  issues_by_severity : gmap string Z
}.

(** [len(xs)] as an [int]. *)
Definition len {A} (xs : list A) : Z := Z.of_nat (length xs).

(** [sum(xs)] over [int]s. *)
Definition sum (xs : list Z) : Z := fold_left Z.add xs 0.

(** [counts[issue.severity] += 1]: the subscript read raises [KeyError]
    on a key the [dict] does not have. *)
Definition bump (counts : gmap string Z) (issue : Issue)
    : result (gmap string Z) :=
  match counts !! severity issue with
  | Some n => Return (<[severity issue := n + 1]> counts)
  | None => Raise (KeyError (severity issue))
  end.

(** [for issue in result.issues: ...]. *)
Fixpoint bump_issues (counts : gmap string Z) (iss : list Issue)
    : result (gmap string Z) :=
  match iss with
  | [] => Return counts
  | issue :: rest =>
      match bump counts issue with
      | Return counts' => bump_issues counts' rest
      | Raise e => Raise e
      end
  end.

(** [for result in results: for issue in result.issues: ...]. *)
Fixpoint bump_results (counts : gmap string Z) (results : list AnalysisResult)
    : result (gmap string Z) :=
  match results with
  | [] => Return counts
  | r :: rest =>
      match bump_issues counts (issues r) with
      | Return counts' => bump_results counts' rest
      | Raise e => Raise e
      end
  end.

(** [AtenaBot.analyze_project]. *)
Definition analyze_project (path : value) : M world Summary :=
  w <- get ;;
  modify (set_task_count (task_count (bot w) + 1)) ;;;
  modify (on_log (log_operation "analyze_project" "STARTED" path)) ;;;
  results <- lift (analyze_path collab path) ;;
  let total := sum (map (fun r => len (issues r)) results) in
  let zero : gmap string Z := <["HIGH" := 0]> (<["MEDIUM" := 0]> (<["LOW" := 0]> ∅)) in
  counts <- lift (bump_results zero results) ;;
  modify (on_log (log_operation "analyze_project" "COMPLETED"
            (VStr (str_int total ++ " issues found")))) ;;;
  ret {| files_analyzed := len results;
         total_issues := total;
         issues_by_severity := counts |}.

(** [AtenaBot.get_error_help]. *)
Definition get_error_help (error_message : value) : M world value :=
  w <- get ;;
  modify (set_task_count (task_count (bot w) + 1)) ;;;
  lift (analyze_error collab error_message).

(** One pass of the [while self.running] loop of [heartbeat]: the test
    and, when it holds, the body.  The value tells whether the loop goes
    on.  [time.sleep] changes nothing here. *)
Definition heartbeat_pass (now : datetime) : M world bool :=
  w <- get ;;
  if running (bot w) then
    uptime <- get_uptime now ;;
    modify (on_log (debug ("Heartbeat - Uptime: " ++ uptime))) ;;;
    ret true
  else ret false.

(** [AtenaBot.heartbeat], run for one pass per clock reading supplied.
    The value is [true] when the loop has ended and [false] when the
    readings ran out with the loop still going. *)
Fixpoint heartbeat (readings : list datetime) : M world bool :=
  match readings with
  | [] => ret false
  | now :: later =>
      again <- heartbeat_pass now ;;
      if again then heartbeat later else ret true
  end.

End Bot.

(** [s.split(sep)] for a one-character separator. *)
Fixpoint split (sep : ascii) (s : string) : list string :=
  match s with
  | EmptyString => [""]
  | String c rest =>
      if Ascii.eqb c sep then "" :: split sep rest
      else match split sep rest with
           | [] => [String c ""]
           | piece :: pieces => String c piece :: pieces
           end
  end.

(** [xs[-n:]] for [n > 0]: the last [n] items, or all of a shorter list. *)
Definition last_items {A} (n : nat) (xs : list A) : list A :=
  skipn (length xs - n) xs.

(** [s[n:]]. *)
Definition drop_chars (n : nat) (s : string) : string :=
  String.substring n (String.length s - n) s.

Definition newline : ascii := ascii_of_nat 10.

(** The library calls of [do_POST] whose text this development does not
    interpret: [int(str)], [bytes.decode()] and [json.loads]. *)
Record codec : Type := Codec {
  int_of_str : string -> result Z;
  decode : list Byte.byte -> result string;
  json_loads : string -> result value
}.

(** What a handler writes back: the status line, the headers and the
    object given to [json.dumps]. *)
Record response : Type := Response {
  code : Z;
  headers : list (string * string);
  payload : value
}.

(** The handler object of one request, as far as the methods below use
    it: [self.path], [self.requestline], and what [self.version_string()]
    and [self.date_time_string()] give when the response is sent. *)
Record handler : Type := Handler {
  path : string;
  requestline : string;
  version_string : string;
  date_time_string : string
}.

Section HealthHandler.

Variable cfg : config.
Variable fmt : clock_format.
Variable collab : collaborators.
Variable lib : codec.

(** [HealthHandler.log_message], the override: the format is ignored and
    the first argument goes to [logger.debug]. *)
Definition log_message (first_arg : string) : M world unit :=
  modify (on_log (debug ("HTTP: " ++ first_arg))).

(** [HealthHandler._send_json]; the value is the response sent.
    [send_response] of the base class first calls [log_request], which
    hands the request line to [log_message]; then it writes the status line
    and the [Server] and [Date] headers.  The connection is taken to accept
    what is written to it. *)
Definition _send_json (self : handler) (data : value) (status : Z)
    : M world response :=
  log_message (requestline self) ;;;
  ret {| code := status;
         headers := [("Server", version_string self);
                     ("Date", date_time_string self);
                     ("Content-Type", "application/json");
                     ("Access-Control-Allow-Origin", "*")];
         payload := data |}.

Definition opt_value (o : option string) : value :=
  match o with
  | Some s => VStr s
  | None => VNone
  end.

(** The [dict] of [get_status] as a value. *)
Definition status_value (st : BotStatus) : value :=
  VDict [("name", VStr (st_name st));
         ("status", VStr (st_status st));
         ("uptime", VStr (st_uptime st));
         ("tasks_processed", VInt (st_tasks_processed st));
         ("start_time", opt_value (st_start_time st));
         ("current_time", VStr (st_current_time st));
         ("version", VStr "1.0.0")].

(** The [dict] of [analyze_project] as a value; the inner [dict] keeps
    the order in which its three keys were written. *)
Definition summary_value (sm : Summary) : value :=
  VDict [("files_analyzed", VInt (files_analyzed sm));
         ("total_issues", VInt (total_issues sm));
         ("issues_by_severity",
           VDict (omap (fun k => (fun n => (k, VInt n)) <$> issues_by_severity sm !! k)
                    ["HIGH"; "MEDIUM"; "LOW"]))].

(** [HealthHandler.do_GET].  [now_uptime] and [now_current] are the two
    clock readings of [get_status]; [log_file] is [None] when
    [LOGS_DIR / "atena.log"] does not exist, and otherwise what [read_text]
    does with it: the text, or the exception for a file that cannot be read
    or decoded. *)
Definition do_GET (self : handler) (now_uptime now_current : datetime)
    (log_file : option (result string)) : M world response :=
  if String.eqb (path self) "/" || String.eqb (path self) "/health" then
    st <- get_status cfg fmt now_uptime now_current ;;
    _send_json self (VDict [("status", VStr "healthy"); ("bot", status_value st)]) 200
  else if String.eqb (path self) "/status" then
    st <- get_status cfg fmt now_uptime now_current ;;
    _send_json self (status_value st) 200
  else if String.eqb (path self) "/analyze" then
    result <- analyze_project collab (VStr ".") ;;
    _send_json self (summary_value result) 200
  else if String.prefix "/analyze/" (path self) then
    let path := drop_chars 9 (path self) in
    result <- analyze_project collab (VStr path) ;;
    _send_json self (summary_value result) 200
  else if String.eqb (path self) "/logs" then
    match log_file with
    | Some read_text =>
        text <- lift read_text ;;
        let lines := last_items 50 (split newline text) in
        _send_json self (VDict [("logs", VList (map VStr lines))]) 200
    | None => _send_json self (VDict [("logs", VList [])]) 200
    end
  else
    _send_json self (VDict [("error", VStr "Not found")]) 404.

(** [HealthHandler.do_POST].  [content_length_header] is the
    [Content-Length] header when the request has one; [rfile] holds the
    bytes that follow the headers. *)
Definition do_POST (self : handler) (content_length_header : option string)
    (rfile : list Byte.byte) : M world response :=
  content_length <-
    lift (match content_length_header with
          | Some text => int_of_str lib text
          | None => Return 0
          end) ;;
  body <-
    (if Z.ltb 0 content_length
     then lift (decode lib (firstn (Z.to_nat content_length) rfile))
     else ret "{}") ;;
  parsed <-
    try_except
      (data <- (if negb (String.eqb body "")
                then lift (json_loads lib body)
                else ret (VDict [])) ;;
       ret (Some data))
      (fun e => match e with
                | JSONDecodeError _ => Some (ret None)
                | _ => None
                end) ;;
  match parsed with
  | None => _send_json self (VDict [("error", VStr "Invalid JSON")]) 400
  | Some data =>
      if String.eqb (path self) "/error-help" then
        error_msg <- lift (value_get data "error" (VStr "")) ;;
        if negb (truthy error_msg) then
          _send_json self (VDict [("error", VStr "Missing 'error' field")]) 400
        else
          result <- get_error_help collab error_msg ;;
          _send_json self result 200
      else if String.eqb (path self) "/analyze" then
        path <- lift (value_get data "path" (VStr ".")) ;;
        result <- analyze_project collab path ;;
        _send_json self (summary_value result) 200
      else
        _send_json self (VDict [("error", VStr "Not found")]) 404
  end.

End HealthHandler.

(** [signal_handler]: log, stop the bot, [sys.exit(0)].  [sys.exit] ends
    the process; the value is the exit status it is given. *)
Definition signal_handler (cfg : config) (signum : Z) : M world Z :=
  modify (on_log (info ("Received signal " ++ str_int signum ++ ", shutting down..."))) ;;;
  stop cfg ;;;
  ret 0.

End Main.

(* ====================================================================== *)
(** ** The standard library's [subprocess.run] *)
(* ====================================================================== *)

Module Subprocess.

(** What the operating system does with a command, the input of this
    model.  [Runs] is a child that, left alone, ends after [duration]
    microseconds with the given exit status and captured text.  [Garbles]
    is a child that ends likewise but whose captured bytes are not text in
    the locale's encoding: decoding them raises [UnicodeDecodeError] with
    the message [msg].  [Fails] is a call that raises before there is a
    child to wait for (no such working directory, no interpreter). *)
Inductive behaviour : Type :=
| Runs (duration : Z) (returncode : Z) (stdout stderr : string)
| Garbles (duration : Z) (returncode : Z) (msg : string)
| Fails (e : exception).



Definition system : Type := command -> option string -> behaviour.

(** How one call ended: its child exited and the call went on to look at
    the status; the child was killed by the call; or the call raised [e]
    for another reason than the timeout and the exit status. *)
Inductive fate : Type :=
| Exited (returncode : Z)
| Killed
| Failed (e : exception).

(** One call of [subprocess.run]. *)
Record call : Type := Call {
  call_cmd : command;
  call_cwd : option string;
  call_fate : fate
}.

Record CompletedProcess : Type := {
  args : command;
  returncode : Z;
  stdout : string;
  stderr : string
}.

(** [timeout] is in seconds, [duration] in microseconds. *)
Definition expired (timeout : option Z) (duration : Z) : bool :=
  match timeout with
  | Some t => Z.ltb (t * 1000000) duration
  | None => false
  end.

(** [subprocess.run(cmd, cwd=cwd, capture_output=True, text=True,
    timeout=timeout, check=check)] as CPython defines it: wait for the
    child with [communicate(timeout)]; when the time runs out, kill the
    child, wait for it and re-raise [TimeoutExpired]; when the child has
    ended, decode what it wrote, which raises on bytes that are not text;
    then raise [CalledProcessError] on a non-zero status when [check] is
    set.  The value pairs the outcome with the record of the call. *)
Definition run (os : system) (cmd : command) (cwd : option string)
    (timeout : option Z) (check : bool) : result CompletedProcess * call :=
  match os cmd cwd with
  | Fails e => (Raise e, Call cmd cwd (Failed e))
  | Garbles duration rc msg =>
      if expired timeout duration then
        (Raise (TimeoutExpired cmd (default 0 timeout)), Call cmd cwd Killed)
      else
        (Raise (UnicodeDecodeError msg), Call cmd cwd (Failed (UnicodeDecodeError msg)))
  | Runs duration rc out err =>
      if expired timeout duration then
        (Raise (TimeoutExpired cmd (default 0 timeout)), Call cmd cwd Killed)
      else if check && negb (Z.eqb rc 0) then
        (Raise (CalledProcessError cmd rc out err), Call cmd cwd (Exited rc))
      else
        (Return {| args := cmd; returncode := rc; stdout := out; stderr := err |},
         Call cmd cwd (Exited rc))
  end.

(** The commands a call leaves running.  The child that [run] kills is the
    process [Popen] started, and the signal reaches no other process.  With
    [shell=True] that process is the shell: when the shell had started the
    command as a child of its own ([forks]), the command is not signalled
    and goes on; when the shell had replaced itself with the command, the
    command is the process that is killed. *)
Definition left_behind (forks : string -> bool) (c : call) : list command :=
  match call_fate c, call_cmd c with
  | Killed, Shell line => if forks line then [Shell line] else []
  | _, _ => []
  end.

End Subprocess.

(* ====================================================================== *)
(** ** manager.py *)
(* ====================================================================== *)

Module Manager.

Import Subprocess.

(** The CLI process and what it leaves on the machine: the log sink, the
    calls made to [subprocess.run], the lines printed, and the commands that
    were started and are still running with nobody waiting for them. *)
Record world : Type := World {
  log : sink;
  calls : list call;
  printed : list string;
  left_running : list command
}.

Definition init_world : world := World [] [] [] [].

Definition on_log (f : sink -> sink) (w : world) : world :=
  World (f (log w)) (calls w) (printed w) (left_running w).

Definition print (line : string) : M world unit :=
  modify (fun w => World (log w) (calls w) (printed w ++ [line])%list
                     (left_running w)).

(** What the module takes from its surroundings: [core.config.BASE_DIR],
    [sys.executable], which paths exist, the operating system, and whether
    [/bin/sh -c line] runs the line in a child process of the shell
    (otherwise the shell replaces itself with the command). *)
Record host : Type := Host {
  BASE_DIR : string;
  executable : string;
  path_exists : string -> bool;
  os : system;
  shell_forks : string -> bool
}.


(** A [str] is held as the bytes of its UTF-8 encoding.  The characters
    for which [str.isspace] holds, by their bytes.  In one byte: tab to
    carriage return, the four separators 28 to 31, and the space.  In two
    bytes: U+0085 and U+00A0.  In three bytes: U+1680, U+2000 to U+200A,
    U+2028, U+2029, U+202F, U+205F and U+3000. *)
Definition isspace (c : ascii) : bool :=
  let n := nat_of_ascii c in
  ((9 <=? n) && (n <=? 13) || (28 <=? n) && (n <=? 32))%nat.

Definition isspace2 (c1 c2 : ascii) : bool :=
  let n1 := nat_of_ascii c1 in
  let n2 := nat_of_ascii c2 in
  ((n1 =? 194) && ((n2 =? 133) || (n2 =? 160)))%nat.

Definition isspace3 (c1 c2 c3 : ascii) : bool :=
  let n1 := nat_of_ascii c1 in
  let n2 := nat_of_ascii c2 in
  let n3 := nat_of_ascii c3 in
  ((n1 =? 225) && (n2 =? 154) && (n3 =? 128)
   || (n1 =? 226) && (n2 =? 128)
      && ((128 <=? n3) && (n3 <=? 138) || (n3 =? 168) || (n3 =? 169) || (n3 =? 175))
   || (n1 =? 226) && (n2 =? 129) && (n3 =? 159)
   || (n1 =? 227) && (n2 =? 128) && (n3 =? 128))%nat.

(** [s.lstrip()]: the whitespace characters at the front are dropped, one
    character, of one to three bytes, at a time. *)
Fixpoint lstrip (s : string) : string :=
  match s with
  | EmptyString => EmptyString
  | String c1 rest1 =>
      if isspace c1 then lstrip rest1
      else
        match rest1 with
        | EmptyString => s
        | String c2 rest2 =>
            if isspace2 c1 c2 then lstrip rest2
            else
              match rest2 with
              | EmptyString => s
              | String c3 rest3 => if isspace3 c1 c2 c3 then lstrip rest3 else s
              end
        end
  end.

(** [s.rstrip()]: the text is kept up to its last character that is not
    whitespace, that is, it is cut where all that follows is whitespace. *)
Fixpoint rstrip (s : string) : string :=
  match s with
  | EmptyString => EmptyString
  | String c rest =>
      if String.eqb (lstrip s) "" then EmptyString else String c (rstrip rest)
  end.

Definition strip (s : string) : string := rstrip (lstrip s).

(** [base / name] for a relative [name]. *)
Definition path_join (base name : string) : string := base ++ "/" ++ name.

Section Manager.

Variable h : host.

(** [subprocess.run] in the monad: the call is recorded, its outcome
    returned or raised. *)
Definition subprocess_run (cmd : command) (cwd : option string)
    (timeout : option Z) (check : bool) : M world CompletedProcess :=
  fun w =>
    let '(outcome, c) := Subprocess.run (os h) cmd cwd timeout check in
    (outcome, World (log w) (calls w ++ [c])%list (printed w)
                (left_running w ++ left_behind (shell_forks h) c)%list).

Record DependencyManager : Type := { requirements_path : string }.

(** [DependencyManager.__init__]. *)
Definition new_DependencyManager (requirements_file : string)
    : DependencyManager :=
  {| requirements_path := path_join (BASE_DIR h) requirements_file |}.

(** [DependencyManager.install_dependencies]. *)
Definition install_dependencies (self : DependencyManager) (upgrade : bool)
    : M world bool :=
  if negb (path_exists h (requirements_path self)) then
    modify (on_log (log_error "install_dependencies"
              (FileNotFoundError
                 ("Requirements file not found: " ++ requirements_path self)))) ;;;
    ret false
  else
    let cmd := [executable h; "-m"; "pip"; "install"; "-r"; requirements_path self] in
    let cmd := if upgrade then (cmd ++ ["--upgrade"])%list else cmd in
    modify (on_log (log_operation "install_dependencies" "STARTED"
              (VStr (requirements_path self)))) ;;;
    try_except
      (result <- subprocess_run (Argv cmd) None None true ;;
       modify (on_log (log_operation "install_dependencies" "SUCCESS"
                 (VStr ("Installed from " ++ requirements_path self)))) ;;;
       ret true)
      (fun e =>
         match e with
         | CalledProcessError _ _ _ err =>
             Some (modify (on_log (log_error "install_dependencies" e)) ;;;
                   print ("Error output: " ++ err) ;;;
                   ret false)
         | _ => None
         end).


(** [DependencyManager.install_package]. *)
Definition install_package (package : string) : M world bool :=
  let cmd := [executable h; "-m"; "pip"; "install"; package] in
  modify (on_log (log_operation "install_package" "STARTED" (VStr package))) ;;;
  try_except
    (result <- subprocess_run (Argv cmd) None None true ;;
     modify (on_log (log_operation "install_package" "SUCCESS" (VStr package))) ;;;
     ret true)
    (fun e =>
       match e with
       | CalledProcessError _ _ _ _ =>
           Some (modify (on_log (log_error "install_package" e)) ;;; ret false)
       | _ => None
       end).

(** [CommandExecutor.run].  A [Path] is never falsy, so [cwd or BASE_DIR]
    picks [BASE_DIR] exactly when [cwd] is [None]. *)
Definition run (command : string) (cwd : option string) (timeout : Z)
    : M world (bool * string * string) :=
  modify (on_log (log_operation "command_execute" "STARTED" (VStr command))) ;;;
  try_except
    (result <- subprocess_run (Shell command)
                 (Some (default (BASE_DIR h) cwd)) (Some timeout) false ;;
     let success := Z.eqb (returncode result) 0 in
     let status := if success then "SUCCESS" else "FAILED" in
     modify (on_log (log_operation "command_execute" status
               (VStr ("Exit code: " ++ str_int (returncode result))))) ;;;
     ret (success, stdout result, stderr result))
    (fun e =>
       match e with
       | TimeoutExpired _ _ =>
           Some (modify (on_log (log_error "command_execute"
                           (TimeoutError ("Command timed out: " ++ command)))) ;;;
                 ret (false, "", "Command timed out"))
       | _ =>
           Some (modify (on_log (log_error "command_execute" e)) ;;;
                 ret (false, "", str_exc e))
       end).

(** [DependencyManager.list_installed]: no [check], no [try]. *)
Definition list_installed : M world (list string) :=
  result <- subprocess_run
              (Argv [executable h; "-m"; "pip"; "list"; "--format=freeze"])
              None None false ;;
  ret (Main.split Main.newline (strip (stdout result))).

End Manager.

End Manager.


(* ====================================================================== *)
(** ** manager.py: the command line *)
(* ====================================================================== *)

Module Cli.

Import Manager.

(** The [Namespace] that [parse_args] returns, by subcommand; [NoCommand]
    is a command line without one. *)
Inductive arguments : Type :=
| Install (upgrade : bool) (package : option string)
| Run (cmd : string)
| Analyze (path : string)
| NoCommand.

(** The CLI process: the manager's world and the lines written to
    [sys.stderr]. *)
Record console : Type := Console {
  proc : world;
  err_lines : list string
}.

Definition init_console : console := Console init_world [].

(** A manager computation run inside the CLI process. *)
Definition in_proc {A} (m : M world A) : M console A :=
  fun c => let '(r, w) := m (proc c) in (r, Console w (err_lines c)).

(** [print(line, file=sys.stderr)]. *)
Definition print_err (line : string) : M console unit :=
  modify (fun c => Console (proc c) (err_lines c ++ [line])%list).

(** [CodeAnalyzer] as the command line uses it: [analyze_path], and the
    lines [print_report] writes. *)
Record analyzer : Type := Analyzer {
  analyze_path : string -> result (list Main.AnalysisResult);
  print_report : list Main.AnalysisResult -> result (list string)
}.

Section Cli.

Variable h : host.
Variable code_analyzer : analyzer.
Variable help_text : string.

(** [for line in lines: print(line)]. *)
Fixpoint print_all (lines : list string) : M console unit :=
  match lines with
  | [] => ret tt
  | line :: rest => in_proc (print line) ;;; print_all rest
  end.

(** [main] after [parse_args].  The value is the status given to
    [sys.exit], or [None] when [main] returns without it. *)
Definition main (args : arguments) : M console (option Z) :=
  match args with
  | Install upgrade package =>
      let dm := new_DependencyManager h "requirements.txt" in
      success <-
        in_proc (match package with
                 | Some name =>
                     if negb (String.eqb name "") then install_package h name
                     else install_dependencies h dm upgrade
                 | None => install_dependencies h dm upgrade
                 end) ;;
      ret (Some (if success : bool then 0 else 1))
  | Run cmd =>
      outcome <- in_proc (run h cmd None 300) ;;
      let '(success, out, err) := outcome in
      (if negb (String.eqb out "") then in_proc (print out) else ret tt) ;;;
      (if negb (String.eqb err "") then print_err err else ret tt) ;;;
      ret (Some (if success : bool then 0 else 1))
  | Analyze path =>
      results <- lift (analyze_path code_analyzer path) ;;
      lines <- lift (print_report code_analyzer results) ;;
      print_all lines ;;;
      ret None
  | NoCommand =>
      in_proc (print help_text) ;;;
      ret None
  end.

End Cli.

End Cli.


(* ====================================================================== *)
(** ** Sequences of calls on the bot *)
(* ====================================================================== *)

Module Calls.

Import Main.

(** One call made on the global [bot], with the clock readings and the
    argument it gets. *)
Inductive call : Type :=
| Start (now : datetime)
| Stop
| GetUptime (now : datetime)
| GetStatus (now_uptime now_current : datetime)
| AnalyzeProject (path : value)
| GetErrorHelp (error_message : value)
| Heartbeat (readings : list datetime).

Section Perform.

Variable cfg : config.
Variable fmt : clock_format.
Variable collab : collaborators.

(** The world a call leaves, whether the call returned or raised. *)
Definition perform (w : world) (c : call) : world :=
  match c with
  | Start now => exec (start cfg fmt now) w
  | Stop => exec (stop cfg) w
  | GetUptime now => exec (get_uptime now) w
  | GetStatus now_uptime now_current =>
      exec (get_status cfg fmt now_uptime now_current) w
  | AnalyzeProject path => exec (analyze_project collab path) w
  | GetErrorHelp error_message => exec (get_error_help collab error_message) w
  | Heartbeat readings => exec (heartbeat readings) w
  end.

(** The calls of a list, one after the other. *)
Definition perform_all (w : world) (calls : list call) : world :=
  fold_left perform calls w.

End Perform.

Definition is_lifecycle (c : call) : bool :=
  match c with
  | Start _ | Stop => true
  | _ => false
  end.

Definition is_start (c : call) : bool :=
  match c with
  | Start _ => true
  | _ => false
  end.

(** The calls that stand for one analyze or error-help request. *)
Definition is_task (c : call) : bool :=
  match c with
  | AnalyzeProject _ | GetErrorHelp _ => true
  | _ => false
  end.

(** The status the last call of a start/stop sequence stands for. *)
Definition implied_status (calls : list call) : string :=
  match last calls with
  | None => "initialized"
  | Some (Start _) => "running"
  | Some _ => "stopped"
  end.

(** The world as [analyze_project] leaves it just before it calls the
    collaborator. *)
Definition after_started (path : value) (w : world) : world :=
  on_log (log_operation "analyze_project" "STARTED" path)
    (set_task_count (task_count (bot w) + 1) w).

(** The severities the summary has a counter for. *)
Definition known_severity (sev : string) : bool :=
  String.eqb sev "HIGH" || String.eqb sev "MEDIUM" || String.eqb sev "LOW".

(** Every issue of every per-file result, in the order the loops visit
    them. *)
Definition all_issues (results : list AnalysisResult) : list Issue :=
  concat (map issues results).

(** The first issue whose severity has no counter. *)
Definition first_unknown (iss : list Issue) : option Issue :=
  List.find (fun issue => negb (known_severity (severity issue))) iss.

(** The [dict] with exactly the three counters. *)
Definition counts_of (high medium low : Z) : gmap string Z :=
  <["HIGH" := high]> (<["MEDIUM" := medium]> (<["LOW" := low]> ∅)).

End Calls.


(* ====================================================================== *)
(** ** A concrete deployment, for worked examples *)
(* ====================================================================== *)

Module Samples.

Import Main Calls.

Definition cfg : config := Config 8080 60 "ATENA".

(** A clock that prints its microsecond count. *)
Definition fmt : clock_format := ClockFormat str_int str_int.

Definition issue (sev : string) : Issue := {| severity := sev |}.

(** An analyzer that knows two paths and raises on any other, and an
    assistant that echoes the message. *)
Definition collab : collaborators :=
  Collaborators
    (fun path =>
       match path with
       | VStr p =>
           if String.eqb p "." then
             Return [ {| issues := [issue "HIGH"; issue "LOW"] |};
                      {| issues := [issue "MEDIUM"] |} ]
           else if String.eqb p "vendor" then
             Return [ {| issues := [issue "LOW"; issue "CRITICAL"] |} ]
           else Raise (FileNotFoundError p)
       | _ => Raise (OtherException "TypeError" "expected str")
       end)
    (fun msg => Return (VDict [("help", msg)])).

(** The handler object for a request line such as [GET /status HTTP/1.1],
    on a server that answers at the start of 1970. *)
Definition handler_for (method path : string) : handler :=
  Handler path (method ++ " " ++ path ++ " HTTP/1.1")
    "BaseHTTP/0.6 Python/3.11.2" "Thu, 01 Jan 1970 00:00:00 GMT".

(** A bot started at time zero. *)
Definition started_world : world :=
  World {| running := true; start_time := Some 0; task_count := 0;
           status := "running" |} [].

(** A host with a requirements file, where [sleep 10] takes ten seconds,
    [echo hello] prints at once, [false] exits 1, [printf '\377'] writes
    one byte that is not text and exits 0, pip succeeds, and any other shell
    line cannot be started.  Its shell runs every line in a child process of
    its own. *)
Definition host : Manager.host :=
  Manager.Host "/srv/atena" "/usr/bin/python3"
    (fun p => String.eqb p "/srv/atena/requirements.txt")
    (fun cmd cwd =>
       match cmd with
       | Shell line =>
           if String.eqb line "sleep 10" then Subprocess.Runs 10000000 0 "" ""
           else if String.eqb line "echo hello" then
             Subprocess.Runs 2000 0 "hello" ""
           else if String.eqb line "false" then Subprocess.Runs 1000 1 "" ""
           else if String.eqb line "printf '\377'" then
             Subprocess.Garbles 1000 0
               "'utf-8' codec can't decode byte 0xff in position 0: invalid start byte"
           else Subprocess.Fails (FileNotFoundError "No such file or directory")
       | Argv _ => Subprocess.Runs 3000000 0 "Successfully installed" ""
       end)
    (fun line => true).

(** A codec that reads decimal [int]s, takes bytes as ASCII text and parses
    four JSON texts, the ones the examples send. *)
Definition codec : Main.codec :=
  Codec
    (fun text =>
       match NilZero.int_of_string text with
       | Some d => Return (Z.of_int d)
       | None => Raise (ValueError "invalid literal for int()")
       end)
    (fun bytes => Return (string_of_list_byte bytes))
    (fun text =>
       if String.eqb text "{}" then Return (VDict [])
       else if String.eqb text "[]" then Return (VList [])
       else if String.eqb text "null" then Return VNone
       else if String.eqb text "0" then Return (VInt 0)
       else Raise (JSONDecodeError "Expecting value")).

(** A stricter codec: its decoder takes ASCII bytes only, and its parser
    cannot recurse, so that it gives up with [RecursionError] on a text that
    opens two arrays. *)
Definition strict_codec : Main.codec :=
  Codec
    (int_of_str codec)
    (fun bytes =>
       if forallb (fun b => (Byte.to_N b <? 128)%N) bytes
       then Return (string_of_list_byte bytes)
       else Raise (UnicodeDecodeError "'utf-8' codec can't decode byte"))
    (fun text =>
       if String.prefix "[[" text
       then Raise (OtherException "RecursionError" "maximum recursion depth exceeded")
       else json_loads codec text).

(** The lines "line 1" to "line n". *)
Definition numbered_lines (n : nat) : list string :=
  map (fun i => "line " ++ str_int (Z.of_nat i)) (seq 1 n).

(** A text file holding the given lines, each ended by a newline, the way
    a log handler writes them. *)
Fixpoint file_of_lines (lines : list string) : string :=
  match lines with
  | [] => ""
  | line :: rest => line ++ String newline (file_of_lines rest)
  end.

(** Whether a string is a single line. *)
Fixpoint one_line (s : string) : bool :=
  match s with
  | EmptyString => true
  | String c rest => negb (Ascii.eqb c newline) && one_line rest
  end.

(** A host where pip lists two packages and does not know the package
    "nonesuch", and whose shell replaces itself with the command; and a host
    whose interpreter is missing, so that nothing can be started. *)
Definition pip_host : Manager.host :=
  Manager.Host "/srv/atena" "/usr/bin/python3"
    (fun p => String.eqb p "/srv/atena/requirements.txt")
    (fun cmd cwd =>
       match cmd with
       | Shell line => Subprocess.Runs 1000 0 "" ""
       | Argv args =>
           if String.eqb (nth 3 args "") "list" then
             Subprocess.Runs 500000 0
               (file_of_lines ["flask==3.0.0"; "requests==2.31.0"]) ""
           else if String.eqb (nth 4 args "") "nonesuch" then
             Subprocess.Runs 900000 1 ""
               "ERROR: No matching distribution found for nonesuch"
           else Subprocess.Runs 3000000 0 "Successfully installed" ""
       end)
    (fun line => false).

Definition bare_host : Manager.host :=
  Manager.Host "/srv/atena" "/usr/bin/python3"
    (fun p => false)
    (fun cmd cwd => Subprocess.Fails (FileNotFoundError "No such file or directory"))
    (fun line => false).

(** A code analyzer for the command line that finds nothing. *)
Definition cli_analyzer : Cli.analyzer :=
  Cli.Analyzer (fun path => Return []) (fun results => Return ["No issues found"]).

End Samples.


(* ====================================================================== *)
(** ** Vocabulary for the further properties *)
(* ====================================================================== *)

Module Views.

Import Main Calls.

(** The clock reading of the most recent [start()] in a sequence. *)
Definition last_start (calls : list call) : option datetime :=
  fold_left (fun seen c => match c with Start now => Some now | _ => seen end)
    calls None.

(** How the lifecycle fields of a bot hang together. *)
Definition consistent (b : AtenaBot) : Prop :=
  (running b = true <-> status b = "running")
  /\ (status b = "initialized" -> start_time b = None)
  /\ (status b = "running" -> start_time b <> None)
  /\ (status b = "initialized" \/ status b = "running" \/ status b = "stopped").




(** What serving one request may do to the world: count at most one task
    and add records to the log, nothing else. *)
Definition served (w w' : world) : Prop :=
  running (bot w') = running (bot w)
  /\ status (bot w') = status (bot w)
  /\ start_time (bot w') = start_time (bot w)
  /\ (task_count (bot w') = task_count (bot w)
      \/ task_count (bot w') = task_count (bot w) + 1)
  /\ exists more, log w' = (log w ++ more)%list.

(** A computation that leaves the world as it was, whatever it returns or
    raises; and one that serves a request in the sense above. *)
Definition reads_only {A} (m : M world A) : Prop := forall w, exec m w = w.

Definition serves {A} (m : M world A) : Prop := forall w, served w (exec m w).

(** A computation that leaves the bot as it was and only adds records at
    the end of the log, whatever it returns or raises. *)
Definition logs_only {A} (m : M world A) : Prop :=
  forall w, bot (exec m w) = bot w /\ exists more, log (exec m w) = (log w ++ more)%list.

(** The headers every response carries, and the world after the one
    record that sending a response writes. *)
Definition json_headers (self : handler) : list (string * string) :=
  [("Server", version_string self); ("Date", date_time_string self);
   ("Content-Type", "application/json"); ("Access-Control-Allow-Origin", "*")].

Definition answered (self : handler) (w : world) : world :=
  on_log (debug ("HTTP: " ++ requestline self)) w.

(** [sep.join(pieces)] for a one-character separator. *)
Fixpoint join (sep : ascii) (pieces : list string) : string :=
  match pieces with
  | [] => ""
  | [piece] => piece
  | piece :: rest => piece ++ String sep (join sep rest)
  end.

(** An ASCII character that is not whitespace, and a string of such
    characters. *)
Definition plain (c : ascii) : bool :=
  (nat_of_ascii c <? 128)%nat && negb (Manager.isspace c).

Fixpoint plain_text (s : string) : bool :=
  match s with
  | EmptyString => true
  | String c rest => plain c && plain_text rest
  end.

(** A non-empty word of ASCII characters without whitespace, such as
    "name==version". *)
Definition word (s : string) : bool :=
  negb (String.eqb s "") && plain_text s.

(** Whether an [except subprocess.CalledProcessError] clause takes the
    exception. *)
Definition is_CalledProcessError (e : exception) : bool :=
  match e with
  | CalledProcessError _ _ _ _ => true
  | _ => false
  end.

(** The argument vectors of [install_package] and [list_installed]. *)
Definition package_command (h : Manager.host) (package : string) : list string :=
  [Manager.executable h; "-m"; "pip"; "install"; package].

Definition list_command (h : Manager.host) : list string :=
  [Manager.executable h; "-m"; "pip"; "list"; "--format=freeze"].

End Views.


(* ====================================================================== *)
(** ** The server loop *)
(* ====================================================================== *)

Module Server.

Import Main.

(** One request as the server hands it on: the method, the handler
    object, and what else the method reads (clock readings and the log file
    for a GET, the [Content-Length] header and the bytes after the headers
    for a POST). *)
Inductive request : Type :=
| GET (self : handler) (now_uptime now_current : datetime)
    (log_file : option (result string))
| POST (self : handler) (content_length_header : option string)
    (rfile : list Byte.byte).

Section Server.

Variable cfg : config.
Variable fmt : clock_format.
Variable collab : collaborators.
Variable lib : codec.

(** What [HTTPServer] does with one request: a handler is made for it and
    [do_GET] or [do_POST] is called.  An exception that leaves the method is
    reported by the server's [handle_error] and the server goes on, so what
    the request leaves behind is the state the method left. *)
Definition handle (w : world) (r : request) : world :=
  match r with
  | GET self now_uptime now_current log_file =>
      exec (do_GET cfg fmt collab self now_uptime now_current log_file) w
  | POST self content_length_header rfile =>
      exec (do_POST collab lib self content_length_header rfile) w
  end.

(** [serve_forever] of [run_server] on the requests that arrive;
    [HTTPServer] takes them one at a time. *)
Definition serve (w : world) (requests : list request) : world :=
  fold_left handle requests w.

End Server.

End Server.


(* ====================================================================== *)
(** ** Properties of the bot *)
(* ====================================================================== *)

Module BotProps.

Import Main Calls.

Section Lifecycle.

Variable cfg : config.
Variable fmt : clock_format.
Variable collab : collaborators.

Lemma start_returns (now : datetime) (w : world) :
  eval (start cfg fmt now) w = Return tt.
Proof. reflexivity. Qed.

Lemma stop_returns (w : world) : eval (stop cfg) w = Return tt.
Proof. reflexivity. Qed.

Lemma status_after_start (now : datetime) (w : world) :
  status (bot (exec (start cfg fmt now) w)) = "running".
Proof. reflexivity. Qed.

Lemma status_after_stop (w : world) :
  status (bot (exec (stop cfg) w)) = "stopped".
Proof. reflexivity. Qed.

Lemma perform_all_snoc (w : world) (calls : list call) (c : call) :
  perform_all cfg fmt collab w (calls ++ [c])%list
  = perform cfg fmt collab (perform_all cfg fmt collab w calls) c.
Proof. unfold perform_all. now rewrite fold_left_app. Qed.

Lemma implied_status_snoc (calls : list call) (c : call) :
  implied_status (calls ++ [c])%list
  = match c with Start _ => "running" | _ => "stopped" end.
Proof. unfold implied_status. now rewrite last_snoc. Qed.

(** C1.  After any finite sequence of [start()] and [stop()] calls on a
    fresh bot the status is the one the last call stands for, "running"
    after [start] and "stopped" after [stop], and "initialized" when the
    sequence is empty.  Neither call raises, whatever the state it finds,
    and each leaves its own status, so a second [stop] or a second [start]
    is harmless. *)
Theorem status_follows_last_call (calls : list call) :
  forallb is_lifecycle calls = true ->
  status (bot (perform_all cfg fmt collab init_world calls)) = implied_status calls
  /\ (forall w now,
        eval (start cfg fmt now) w = Return tt
        /\ status (bot (exec (start cfg fmt now) w)) = "running")
  /\ (forall w,
        eval (stop cfg) w = Return tt
        /\ status (bot (exec (stop cfg) w)) = "stopped").
Proof.
  intros Hlife. split; [| split; intros; split; reflexivity].
  induction calls as [| c calls' IH] using rev_ind; [reflexivity |].
  rewrite forallb_app in Hlife. apply andb_prop in Hlife as [_ Hc].
  rewrite perform_all_snoc, implied_status_snoc.
  destruct c; simpl in Hc; try discriminate; reflexivity.
Qed.

End Lifecycle.

Section TaskCount.

Variable cfg : config.
Variable fmt : clock_format.
Variable collab : collaborators.

Lemma get_uptime_run (now : datetime) (w : world) :
  exists text, get_uptime now w = (Return text, w).
Proof.
  unfold get_uptime, bind, get, ret, divmod.
  destruct (start_time (bot w)); eexists; reflexivity.
Qed.

Lemma get_uptime_keeps_world (now : datetime) (w : world) :
  exec (get_uptime now) w = w.
Proof.
  unfold exec. destruct (get_uptime_run now w) as [text Hrun]. now rewrite Hrun.
Qed.

Lemma get_status_keeps_world (now_uptime now_current : datetime) (w : world) :
  exec (get_status cfg fmt now_uptime now_current) w = w.
Proof.
  unfold exec, get_status, bind at 1, get. unfold bind.
  destruct (get_uptime_run now_uptime w) as [text Hrun]. now rewrite Hrun.
Qed.

Lemma heartbeat_pass_keeps_bot (now : datetime) (w : world) :
  bot (snd (heartbeat_pass now w)) = bot w.
Proof.
  unfold heartbeat_pass, get_uptime, bind, get, ret, modify, divmod.
  destruct (running (bot w)); [| reflexivity].
  destruct (start_time (bot w)); reflexivity.
Qed.

Lemma heartbeat_keeps_bot (readings : list datetime) (w : world) :
  bot (exec (heartbeat readings) w) = bot w.
Proof.
  revert w. induction readings as [| now later IH]; intros w; [reflexivity |].
  unfold exec in *. simpl. unfold bind at 1.
  pose proof (heartbeat_pass_keeps_bot now w) as Hpass.
  destruct (heartbeat_pass now w) as [[again | e] w']; simpl in *.
  - destruct again; [rewrite IH | simpl]; exact Hpass.
  - exact Hpass.
Qed.

Lemma analyze_project_task_count (path : value) (w : world) :
  task_count (bot (exec (analyze_project collab path) w)) = task_count (bot w) + 1.
Proof.
  unfold exec, analyze_project, bind, get, modify, lift, ret. simpl.
  destruct (analyze_path collab path) as [results | e]; [| reflexivity].
  destruct (bump_results _ results); reflexivity.
Qed.

Lemma get_error_help_task_count (msg : value) (w : world) :
  task_count (bot (exec (get_error_help collab msg) w)) = task_count (bot w) + 1.
Proof.
  unfold exec, get_error_help, bind, get, modify, lift. simpl.
  destruct (analyze_error collab msg); reflexivity.
Qed.

Lemma perform_task_count (w : world) (c : call) :
  task_count (bot (perform cfg fmt collab w c))
  = task_count (bot w) + (if is_task c then 1 else 0).
Proof.
  destruct c; cbn [perform is_task].
  - rewrite Z.add_0_r. reflexivity.
  - rewrite Z.add_0_r. reflexivity.
  - rewrite get_uptime_keeps_world. lia.
  - rewrite get_status_keeps_world. lia.
  - apply analyze_project_task_count.
  - apply get_error_help_task_count.
  - rewrite heartbeat_keeps_bot. lia.
Qed.

(** C2.  Whatever calls are made on the bot, in whatever order, and whether
    the collaborators return or raise, [task_count] ends at its earlier
    value plus the number of [analyze_project] and [get_error_help] calls
    among them: each of those adds exactly one, and [start], [stop],
    [get_status], [get_uptime] and [heartbeat] add nothing. *)
Theorem task_count_counts_requests (w : world) (calls : list call) :
  task_count (bot (perform_all cfg fmt collab w calls))
  = task_count (bot w) + Z.of_nat (length (List.filter is_task calls)).
Proof.
  revert w. induction calls as [| c calls' IH]; intros w.
  - cbn. lia.
  - change (perform_all cfg fmt collab w (c :: calls'))
      with (perform_all cfg fmt collab (perform cfg fmt collab w c) calls').
    rewrite IH, perform_task_count. cbn [List.filter].
    destruct (is_task c); cbn [length]; lia.
Qed.

End TaskCount.

Section Uptime.

Variable cfg : config.
Variable fmt : clock_format.
Variable collab : collaborators.

(** A printed [int] starts with a digit or a minus sign. *)
Lemma str_int_head (n : Z) :
  exists c rest, str_int n = String c rest /\ c <> "N"%char.
Proof.
  unfold str_int. destruct (Z.to_int n) as [d | d].
  - destruct d; simpl; eexists; eexists; (split; [reflexivity | discriminate]).
  - simpl. eexists; eexists; (split; [reflexivity | discriminate]).
Qed.

Lemma uptime_text_started (h : Z) (rest : string) :
  str_int h ++ rest <> "Not started".
Proof.
  destruct (str_int_head h) as (c & tl & Heq & Hc). rewrite Heq.
  simpl. intros Habs. injection Habs as Hhead _. contradiction.
Qed.

Lemma analyze_project_start_time (path : value) (w : world) :
  start_time (bot (exec (analyze_project collab path) w)) = start_time (bot w).
Proof.
  unfold exec, analyze_project, bind, get, modify, lift, ret. simpl.
  destruct (analyze_path collab path) as [results | e]; [| reflexivity].
  destruct (bump_results _ results); reflexivity.
Qed.

Lemma get_error_help_start_time (msg : value) (w : world) :
  start_time (bot (exec (get_error_help collab msg) w)) = start_time (bot w).
Proof.
  unfold exec, get_error_help, bind, get, modify, lift. simpl.
  destruct (analyze_error collab msg); reflexivity.
Qed.

Lemma perform_start_time (w : world) (c : call) :
  start_time (bot (perform cfg fmt collab w c))
  = match c with
    | Start now => Some now
    | _ => start_time (bot w)
    end.
Proof.
  destruct c; cbn [perform].
  - reflexivity.
  - reflexivity.
  - now rewrite get_uptime_keeps_world.
  - now rewrite get_status_keeps_world.
  - apply analyze_project_start_time.
  - apply get_error_help_start_time.
  - now rewrite heartbeat_keeps_bot.
Qed.

Lemma never_started (w : world) (calls : list call) :
  start_time (bot (perform_all cfg fmt collab w calls)) = None
  <-> start_time (bot w) = None /\ existsb is_start calls = false.
Proof.
  induction calls as [| c calls' IH] using rev_ind.
  - cbn. tauto.
  - rewrite perform_all_snoc, perform_start_time, existsb_app. cbn [existsb].
    rewrite orb_false_r, orb_false_iff.
    destruct c; cbn [is_start]; try tauto; split; try discriminate;
      intros (_ & _ & Habs); discriminate.
Qed.

(** Cutting a quotient that was rounded at a binary place finer than
    [1 / b] gives the whole part of the exact quotient. *)
Lemma round_cut (a b K m : Z) :
  0 <= a -> 0 < b -> 0 < K -> b < 2 * K ->
  m = a * K / b \/ (m = a * K / b + 1 /\ b <= 2 * ((a * K) mod b)) ->
  m / K = a / b.
Proof.
  intros Ha Hb HK HbK Hm.
  pose proof (Z.div_mod a b ltac:(lia)) as Hab.
  pose proof (Z.mod_pos_bound a b Hb) as Hs.
  pose proof (Z.div_mod (a * K) b ltac:(lia)) as HaK.
  pose proof (Z.mod_pos_bound (a * K) b Hb) as Hr.
  set (n := a / b) in *. set (s := a mod b) in *.
  set (m0 := a * K / b) in *. set (r := (a * K) mod b) in *.
  assert (Hlow : n * K <= m0) by nia.
  assert (Hhigh : m0 < (n + 1) * K) by nia.
  symmetry. apply (Z.div_unique m K n (m - K * n)); [| lia].
  left. destruct Hm as [-> | [-> Hup]]; [nia |].
  split; [nia |].
  assert (b * m0 <= b * n * K + b * K - K - r) by nia.
  nia.
Qed.

(** A quotient below 2^34 has its leading bit at 33 or lower. *)
Lemma lead_bound (a b : Z) :
  0 < a -> 0 < b -> a < 2 ^ 34 * b ->
  let d := Z.log2 a - Z.log2 b in
  (if Z.leb (b * 2 ^ Z.max 0 d) (a * 2 ^ Z.max 0 (- d)) then d else d - 1) <= 33.
Proof.
  intros Ha Hb Hab d.
  pose proof (Z.log2_spec a Ha) as [Hla1 Hla2].
  pose proof (Z.log2_spec b Hb) as [Hlb1 Hlb2].
  pose proof (Z.log2_nonneg a). pose proof (Z.log2_nonneg b).
  destruct (Z.le_gt_cases d 33) as [Hd | Hd].
  - destruct (Z.leb _ _); lia.
  - assert (Hmax : Z.max 0 d = d) by lia.
    assert (Hmax' : Z.max 0 (- d) = 0) by lia.
    rewrite Hmax, Hmax'. rewrite Z.pow_0_r, Z.mul_1_r.
    assert (H34 : 2 ^ 34 <= 2 ^ d) by (apply Z.pow_le_mono_r; lia).
    destruct (Z.leb_spec (b * 2 ^ d) a) as [Hle | Hgt]; [nia |].
    destruct (Z.eq_dec d 34) as [-> | Hne]; [lia |].
    exfalso.
    assert (Hla : Z.log2 a = Z.log2 b + 1 + (d - 1)) by (unfold d; lia).
    rewrite Hla in Hla1. rewrite Z.pow_add_r in Hla1 by lia.
    assert (2 ^ 34 <= 2 ^ (d - 1)) by (apply Z.pow_le_mono_r; lia).
    replace (Z.succ (Z.log2 b)) with (Z.log2 b + 1) in Hlb2 by lia.
    nia.
Qed.

(** Below 2^34, and with a divisor below 2^20, the [float] quotient cut by
    [int] is the floor of the exact quotient. *)
Lemma int_of_true_divide (a b : Z) :
  0 <= a -> 0 < b -> b < 2 ^ 20 -> a < 2 ^ 34 * b ->
  int_of_float (true_divide a b) = a / b.
Proof.
  intros Ha Hb Hb20 Hab. unfold true_divide.
  destruct (Z.eqb_spec a 0) as [-> | Hne]; [reflexivity |].
  pose proof (lead_bound a b ltac:(lia) Hb Hab) as Hlead.
  cbv beta zeta in *.
  set (lead := if Z.leb _ _ then _ else _) in *. clearbody lead.
  assert (He : Z.max 0 (lead - 52) = 0) by lia.
  assert (He' : Z.max 0 (- (lead - 52)) = 52 - lead) by lia.
  rewrite He, He'. rewrite Z.pow_0_r, Z.mul_1_r.
  unfold int_of_float.
  destruct (Z.leb_spec 0 (lead - 52)) as [Hpos | _]; [exfalso; lia |].
  replace (- (lead - 52)) with (52 - lead) by lia.
  assert (HK : 2 ^ 19 <= 2 ^ (52 - lead)) by (apply Z.pow_le_mono_r; lia).
  change (2 ^ 19) with 524288 in HK. change (2 ^ 20) with 1048576 in Hb20.
  apply round_cut; try lia.
  set (K := 2 ^ (52 - lead)) in *.
  destruct (Z.ltb_spec b (2 * ((a * K) mod b))) as [Hup | Hnot]; cbn [orb].
  - right. split; [reflexivity | lia].
  - destruct (Z.eqb_spec (2 * ((a * K) mod b)) b) as [Heq | Hneq]; cbn [andb].
    + destruct (Z.odd (a * K / b)); [right; split; [reflexivity | lia] | now left].
    + now left.
Qed.

Lemma int_total_seconds_short (delta : timedelta) :
  0 <= delta < 17179869184 * 1000000 ->
  int_total_seconds delta = delta / 1000000.
Proof.
  intros [Hlow Hhigh]. unfold int_total_seconds.
  destruct (Z.eq_dec delta 0) as [-> | Hne]; [reflexivity |].
  rewrite Z.sgn_pos, Z.abs_eq, Z.mul_1_l by lia.
  apply int_of_true_divide;
    [lia | lia | reflexivity | change (2 ^ 34) with 17179869184; lia].
Qed.

(** C3, amended.  [get_uptime()] returns "Not started" exactly when
    [start_time] is unset, and on a bot driven from its initial state that
    is exactly when no [start()] call has been made.  Otherwise, for a clock
    reading [now] at or after [start_time] and less than 2^34 seconds (some
    544 years) after it, it returns "{h}h {m}m {s}s" where [d] is the number
    of whole seconds in [now - start_time] (cut, not rounded),
    [h = d / 3600], [m = (d mod 3600) / 60], [s = d mod 60], so that
    [d = 3600 h + 60 m + s] with [0 <= m < 60] and [0 <= s < 60].  From 2^34
    seconds on, the [float] that [total_seconds] returns can round up to the
    next second. *)
Theorem get_uptime_spec :
  (forall w now,
     eval (get_uptime now) w = Return "Not started" <-> start_time (bot w) = None)
  /\ (forall calls,
        start_time (bot (perform_all cfg fmt collab init_world calls)) = None
        <-> existsb is_start calls = false)
  /\ (forall w t now,
        start_time (bot w) = Some t -> t <= now ->
        now - t < 17179869184 * 1000000 ->
        let d := (now - t) / 1000000 in
        let h := d / 3600 in
        let m := (d mod 3600) / 60 in
        let s := d mod 60 in
        eval (get_uptime now) w
        = Return (str_int h ++ "h " ++ str_int m ++ "m " ++ str_int s ++ "s")
        /\ d * 1000000 <= now - t < (d + 1) * 1000000
        /\ d = 3600 * h + 60 * m + s
        /\ 0 <= h /\ 0 <= m < 60 /\ 0 <= s < 60).
Proof.
  split; [| split].
  - intros w now. unfold eval, get_uptime, bind, get, ret, divmod.
    destruct (start_time (bot w)) as [t |]; simpl.
    + split; [| discriminate]. intros Habs. injection Habs as Habs.
      now apply uptime_text_started in Habs.
    + tauto.
  - intros calls. rewrite never_started. cbn. tauto.
  - intros w t now Hstart Hle Hshort d h m s.
    assert (Hd : int_total_seconds (now - t) = d).
    { unfold d. apply int_total_seconds_short. lia. }
    assert (Hs : (d mod 3600) mod 60 = s).
    { unfold s. apply Z.mod_mod_divide. exists 60. lia. }
    split; [| split; [| split; [| split; [| split]]]].
    + unfold eval, get_uptime, bind, get, ret, divmod. rewrite Hstart.
      cbv beta iota. rewrite Hd, Hs. reflexivity.
    + unfold d. pose proof (Z.mul_div_le (now - t) 1000000 ltac:(lia)).
      pose proof (Z.mul_succ_div_gt (now - t) 1000000 ltac:(lia)). lia.
    + unfold h, m, s.
      pose proof (Z.div_mod d 3600 ltac:(lia)).
      pose proof (Z.div_mod (d mod 3600) 60 ltac:(lia)).
      unfold s in Hs. lia.
    + unfold h. apply Z.div_pos; [| lia]. unfold d. apply Z.div_pos; lia.
    + unfold m. split.
      * apply Z.div_pos; [| lia]. apply Z.mod_pos_bound. lia.
      * apply Z.div_lt_upper_bound; [lia |]. apply Z.mod_pos_bound. lia.
    + unfold s. apply Z.mod_pos_bound. lia.
Qed.

End Uptime.

Section Analyze.

Variable collab : collaborators.

Lemma analyze_project_raises (path : value) (w : world) (e : exception) :
  analyze_path collab path = Raise e ->
  analyze_project collab path w = (Raise e, after_started path w).
Proof.
  intros Hraise. unfold analyze_project, bind, get, modify, lift. simpl.
  rewrite Hraise. reflexivity.
Qed.

(** C9.  [analyze_project] adds one to [task_count] and appends the STARTED
    record before it calls the analysis collaborator.  So when the
    collaborator raises, the same exception leaves [analyze_project] (no
    summary is returned), and the world it leaves is the earlier one with
    [task_count] one higher and the STARTED record appended: nothing is
    rolled back, and no COMPLETED record has been written. *)
Theorem analyze_project_failure_keeps_effects
    (path : value) (w : world) (e : exception) :
  analyze_path collab path = Raise e ->
  eval (analyze_project collab path) w = Raise e
  /\ exec (analyze_project collab path) w = after_started path w
  /\ task_count (bot (exec (analyze_project collab path) w)) = task_count (bot w) + 1
  /\ log (exec (analyze_project collab path) w)
     = (log w ++ [Operation "analyze_project" "STARTED" path])%list
  /\ count_operation "analyze_project" "COMPLETED"
       (log (exec (analyze_project collab path) w))
     = count_operation "analyze_project" "COMPLETED" (log w).
Proof.
  intros Hraise. unfold eval, exec.
  rewrite (analyze_project_raises path w e Hraise). cbn [fst snd].
  repeat split.
  unfold after_started, on_log, log_operation, count_operation. cbn [log].
  rewrite List.filter_app, length_app. cbn. lia.
Qed.

Lemma known_severity_cases (sev : string) :
  known_severity sev = true -> sev = "HIGH" \/ sev = "MEDIUM" \/ sev = "LOW".
Proof.
  unfold known_severity. rewrite !orb_true_iff, !String.eqb_eq. tauto.
Qed.

Lemma bump_known (h m l : Z) (issue : Issue) :
  known_severity (severity issue) = true ->
  exists h' m' l',
    bump (counts_of h m l) issue = Return (counts_of h' m' l')
    /\ h' + m' + l' = h + m + l + 1.
Proof.
  intros Hknown. unfold bump.
  destruct (known_severity_cases _ Hknown) as [-> | [-> | ->]]; unfold counts_of.
  - rewrite lookup_insert_eq. exists (h + 1), m, l. split; [| lia].
    now rewrite insert_insert_eq.
  - rewrite lookup_insert_ne by discriminate. rewrite lookup_insert_eq.
    exists h, (m + 1), l. split; [| lia].
    rewrite (insert_insert_ne _ "MEDIUM" "HIGH") by discriminate.
    now rewrite insert_insert_eq.
  - rewrite !lookup_insert_ne by discriminate. rewrite lookup_insert_eq.
    exists h, m, (l + 1). split; [| lia].
    rewrite (insert_insert_ne _ "LOW" "HIGH") by discriminate.
    rewrite (insert_insert_ne _ "LOW" "MEDIUM") by discriminate.
    now rewrite insert_insert_eq.
Qed.

Lemma bump_unknown (h m l : Z) (issue : Issue) :
  known_severity (severity issue) = false ->
  bump (counts_of h m l) issue = Raise (KeyError (severity issue)).
Proof.
  unfold known_severity. rewrite !orb_false_iff, !String.eqb_neq.
  intros [[Hh Hm] Hl]. unfold bump, counts_of.
  rewrite !lookup_insert_ne by congruence. now rewrite lookup_empty.
Qed.

Lemma bump_issues_spec (iss : list Issue) (h m l : Z) :
  match first_unknown iss with
  | None =>
      exists h' m' l',
        bump_issues (counts_of h m l) iss = Return (counts_of h' m' l')
        /\ h' + m' + l' = h + m + l + len iss
  | Some bad => bump_issues (counts_of h m l) iss = Raise (KeyError (severity bad))
  end.
Proof.
  revert h m l. induction iss as [| issue rest IH]; intros h m l.
  - cbn. exists h, m, l. split; [reflexivity | unfold len; cbn; lia].
  - unfold first_unknown in *. cbn [List.find bump_issues].
    destruct (known_severity (severity issue)) eqn:Hknown; cbn [negb].
    + destruct (bump_known h m l issue Hknown) as (h1 & m1 & l1 & Hbump & Hsum).
      rewrite Hbump. specialize (IH h1 m1 l1).
      destruct (List.find _ rest) as [bad |]; [exact IH |].
      destruct IH as (h2 & m2 & l2 & Hrest & Hsum2).
      exists h2, m2, l2. split; [exact Hrest |].
      unfold len in *. cbn [length]. lia.
    + now rewrite (bump_unknown h m l issue Hknown).
Qed.

Lemma first_unknown_app (xs ys : list Issue) :
  first_unknown (xs ++ ys)%list
  = match first_unknown xs with
    | Some bad => Some bad
    | None => first_unknown ys
    end.
Proof.
  unfold first_unknown. induction xs as [| x xs IH]; [reflexivity |].
  cbn [app List.find]. destruct (negb _); [reflexivity | exact IH].
Qed.

Lemma bump_results_spec (results : list AnalysisResult) (h m l : Z) :
  match first_unknown (all_issues results) with
  | None =>
      exists h' m' l',
        bump_results (counts_of h m l) results = Return (counts_of h' m' l')
        /\ h' + m' + l' = h + m + l + len (all_issues results)
  | Some bad =>
      bump_results (counts_of h m l) results = Raise (KeyError (severity bad))
  end.
Proof.
  revert h m l. induction results as [| r rest IH]; intros h m l.
  - cbn. exists h, m, l. split; [reflexivity | unfold len; cbn; lia].
  - unfold all_issues in *. cbn [map concat bump_results].
    rewrite first_unknown_app.
    pose proof (bump_issues_spec (issues r) h m l) as Hr.
    destruct (first_unknown (issues r)) as [bad |].
    + now rewrite Hr.
    + destruct Hr as (h1 & m1 & l1 & Hbump & Hsum). rewrite Hbump.
      specialize (IH h1 m1 l1).
      destruct (first_unknown (concat (map issues rest))) as [bad |]; [exact IH |].
      destruct IH as (h2 & m2 & l2 & Hrest & Hsum2).
      exists h2, m2, l2. split; [exact Hrest |].
      unfold len in *. rewrite length_app. lia.
Qed.

Lemma sum_from (xs : list Z) (a : Z) : fold_left Z.add xs a = a + sum xs.
Proof.
  unfold sum. revert a. induction xs as [| x xs IH]; intros a; cbn [fold_left]; [lia |].
  rewrite (IH (a + x)), (IH (0 + x)). lia.
Qed.

Lemma sum_of_lengths (results : list AnalysisResult) :
  sum (map (fun r => len (issues r)) results) = len (all_issues results).
Proof.
  induction results as [| r rest IH]; [reflexivity |].
  unfold all_issues in *. cbn [map concat]. unfold sum at 1. cbn [fold_left].
  rewrite sum_from, IH. unfold len. rewrite length_app. lia.
Qed.

Lemma dom_counts_of (h m l : Z) :
  dom (counts_of h m l) = ({["HIGH"; "MEDIUM"; "LOW"]} : gset string).
Proof.
  unfold counts_of. rewrite !dom_insert_L, dom_empty_L. set_solver.
Qed.

(** C10.  Let the collaborator return [results].  When every issue's
    severity is "HIGH", "MEDIUM" or "LOW", [analyze_project] returns a
    summary whose [files_analyzed] is the number of per-file results, whose
    [total_issues] is the number of issues over all results, and whose
    [issues_by_severity] has exactly the keys "HIGH", "MEDIUM" and "LOW"
    with values that add up to [total_issues].  When some issue has another
    severity, the fold raises [KeyError] on such a severity and no summary
    is returned. *)
Theorem analyze_project_summary
    (path : value) (w : world) (results : list AnalysisResult) :
  analyze_path collab path = Return results ->
  (Forall (fun issue => known_severity (severity issue) = true) (all_issues results) ->
   exists sm,
     eval (analyze_project collab path) w = Return sm
     /\ files_analyzed sm = len results
     /\ total_issues sm = len (all_issues results)
     /\ dom (issues_by_severity sm) = ({["HIGH"; "MEDIUM"; "LOW"]} : gset string)
     /\ exists h m l,
          issues_by_severity sm = counts_of h m l /\ h + m + l = total_issues sm)
  /\ (Exists (fun issue => known_severity (severity issue) = false) (all_issues results) ->
      exists bad,
        In bad (all_issues results)
        /\ known_severity (severity bad) = false
        /\ eval (analyze_project collab path) w = Raise (KeyError (severity bad))).
Proof.
  intros Hret.
  assert (Hrun :
    eval (analyze_project collab path) w
    = match bump_results (counts_of 0 0 0) results with
      | Return c =>
          Return {| files_analyzed := len results;
                    total_issues := sum (map (fun r => len (issues r)) results);
                    issues_by_severity := c |}
      | Raise e => Raise e
      end).
  { unfold eval, analyze_project, bind, get, modify, lift, ret. simpl.
    rewrite Hret. fold (counts_of 0 0 0).
    destruct (bump_results (counts_of 0 0 0) results); reflexivity. }
  pose proof (bump_results_spec results 0 0 0) as Hfold.
  destruct (first_unknown (all_issues results)) as [bad |] eqn:Hfirst.
  - apply List.find_some in Hfirst as [Hin Hbad].
    apply negb_true_iff in Hbad. split.
    + intros Hall. rewrite List.Forall_forall in Hall.
      specialize (Hall bad Hin). cbn in Hall. congruence.
    + intros _. exists bad. rewrite Hrun, Hfold. auto.
  - split.
    + intros _. destruct Hfold as (h & m & l & Hbump & Hsum).
      rewrite Hrun, Hbump. eexists. split; [reflexivity |]. cbn.
      rewrite sum_of_lengths.
      split; [reflexivity |]. split; [reflexivity |].
      split; [apply dom_counts_of |].
      exists h, m, l. split; [reflexivity | lia].
    + intros Hex. apply List.Exists_exists in Hex as (bad & Hin & Hbad).
      pose proof (List.find_none _ _ Hfirst bad Hin) as Hnone. cbn in Hnone.
      rewrite Hbad in Hnone. discriminate.
Qed.

End Analyze.

(** [start], [stop], [stop] on the sample bot ends "stopped". *)
Lemma status_follows_last_call_witness :
  status (bot (perform_all Samples.cfg Samples.fmt Samples.collab init_world
                 [Start 5; Stop; Stop]))
  = "stopped".
Proof.
  exact (proj1 (status_follows_last_call Samples.cfg Samples.fmt Samples.collab
                  [Start 5; Stop; Stop] eq_refl)).
Defined.

(** A bot started at 0 and read one microsecond short of 1h 2m 6s. *)
Lemma get_uptime_spec_witness :
  eval (get_uptime 3725999999) Samples.started_world = Return "1h 2m 5s".
Proof.
  exact (proj1 (proj2 (proj2 (get_uptime_spec Samples.cfg Samples.fmt Samples.collab))
                  Samples.started_world 0 3725999999 eq_refl ltac:(lia) ltac:(lia))).
Defined.

(** C3 as the claim states it, at a bot that has been up for
    19999999999.999999 seconds (some 634 years): the whole seconds are
    19999999999, that is 5555555h 33m 19s, but the [float] of
    [total_seconds] is 20000000000.0 and [get_uptime] returns
    "5555555h 33m 20s". *)
Lemma get_uptime_spec_counterexample :
  start_time (bot Samples.started_world) = Some 0
  /\ (19999999999999999 - 0) / 1000000 = 19999999999
  /\ eval (get_uptime 19999999999999999) Samples.started_world
     = Return "5555555h 33m 20s"
  /\ eval (get_uptime 19999999999999999) Samples.started_world
     <> Return (str_int (19999999999 / 3600) ++ "h "
                  ++ str_int ((19999999999 mod 3600) / 60) ++ "m "
                  ++ str_int (19999999999 mod 60) ++ "s").
Proof.
  assert (Htext : eval (get_uptime 19999999999999999) Samples.started_world
                  = Return "5555555h 33m 20s") by (vm_compute; reflexivity).
  split; [reflexivity |]. split; [reflexivity |]. split; [exact Htext |].
  rewrite Htext. vm_compute. discriminate.
Qed.

(** The sample analyzer raises on a path it does not know. *)
Lemma analyze_project_failure_keeps_effects_witness :
  eval (analyze_project Samples.collab (VStr "missing")) init_world
  = Raise (FileNotFoundError "missing")
  /\ task_count (bot (exec (analyze_project Samples.collab (VStr "missing")) init_world))
     = 1.
Proof.
  pose proof (analyze_project_failure_keeps_effects Samples.collab (VStr "missing")
                init_world (FileNotFoundError "missing") eq_refl)
    as (Heval & _ & Hcount & _).
  split; [exact Heval | exact Hcount].
Defined.

(** The sample analyzer on ".": two files, three issues, one per
    severity. *)
Lemma analyze_project_summary_witness :
  exists sm,
    eval (analyze_project Samples.collab (VStr ".")) init_world = Return sm
    /\ files_analyzed sm = 2
    /\ total_issues sm = 3.
Proof.
  destruct (proj1 (analyze_project_summary Samples.collab (VStr ".") init_world
                     _ eq_refl))
    as (sm & Heval & Hfiles & Htotal & _).
  - repeat constructor.
  - exists sm. split; [exact Heval |]. split; [exact Hfiles | exact Htotal].
Defined.

End BotProps.


(* ====================================================================== *)
(** ** Properties of the command executor and the dependency manager *)
(* ====================================================================== *)

Module ManagerProps.

Import Subprocess Manager.

Section Executor.

Variable h : host.





End Executor.

Section Dependencies.

Variable h : host.


End Dependencies.






End ManagerProps.


(* ====================================================================== *)
(** ** Properties of the HTTP handler *)
(* ====================================================================== *)

Module HttpProps.

Import Main Views.

Section Post.

Variable collab : collaborators.
Variable lib : codec.

(** What [do_POST] does with a body once it has been read and parsed: the
    part of the handler after the [try]. *)
Lemma do_POST_parsed (self : handler) (header : string) (rfile : list Byte.byte)
    (w : world) (n : Z) (body : string) (data : value) :
  int_of_str lib header = Return n ->
  0 < n ->
  decode lib (firstn (Z.to_nat n) rfile) = Return body ->
  body <> "" ->
  json_loads lib body = Return data ->
  path self = "/error-help" ->
  do_POST collab lib self (Some header) rfile w
  = match value_get data "error" (VStr "") with
    | Return error_msg =>
        if negb (truthy error_msg)
        then (Return (Response 400 (json_headers self)
                        (VDict [("error", VStr "Missing 'error' field")])),
              answered self w)
        else (result <- get_error_help collab error_msg ;;
              _send_json self result 200) w
    | Raise e => (Raise e, w)
    end.
Proof.
  intros Hint Hpos Hdecode Hbody Hjson Hpath.
  unfold do_POST, try_except, bind, lift, ret.
  rewrite Hint. apply Z.ltb_lt in Hpos. rewrite Hpos, Hdecode.
  apply String.eqb_neq in Hbody. rewrite Hbody. cbn [negb]. rewrite Hjson.
  rewrite Hpath. cbn [String.eqb Ascii.eqb Bool.eqb].
  destruct (value_get data "error" (VStr "")) as [error_msg | e]; [| reflexivity].
  destruct (truthy error_msg); reflexivity.
Qed.

(** Malformed JSON is answered with 400 on every path, before the path is
    looked at. *)
Lemma do_POST_invalid_json (self : handler) (header : string)
    (rfile : list Byte.byte) (w : world) (n : Z) (body msg : string) :
  int_of_str lib header = Return n ->
  0 < n ->
  decode lib (firstn (Z.to_nat n) rfile) = Return body ->
  body <> "" ->
  json_loads lib body = Raise (JSONDecodeError msg) ->
  do_POST collab lib self (Some header) rfile w
  = (Return (Response 400 (json_headers self)
               (VDict [("error", VStr "Invalid JSON")])), answered self w).
Proof.
  intros Hint Hpos Hdecode Hbody Hjson.
  unfold do_POST, try_except. unfold bind at 1, lift at 1. rewrite Hint.
  apply Z.ltb_lt in Hpos. rewrite Hpos.
  unfold bind at 1, lift at 1. rewrite Hdecode.
  apply String.eqb_neq in Hbody. rewrite Hbody. cbn [negb].
  unfold bind at 1. unfold bind at 1, lift at 1. rewrite Hjson. reflexivity.
Qed.

(** A JSON object (a [dict]) without a truthy "error" entry is answered
    with 400; with one, the handler calls [get_error_help] and sends what it
    returns with 200. *)
Lemma do_POST_error_help_object (self : handler) (header : string)
    (rfile : list Byte.byte) (w : world) (n : Z) (body : string)
    (fields : list (string * value)) :
  int_of_str lib header = Return n ->
  0 < n ->
  decode lib (firstn (Z.to_nat n) rfile) = Return body ->
  body <> "" ->
  json_loads lib body = Return (VDict fields) ->
  path self = "/error-help" ->
  let error_msg := dict_get fields "error" (VStr "") in
  (truthy error_msg = false ->
   eval (do_POST collab lib self (Some header) rfile) w
   = Return (Response 400 (json_headers self)
               (VDict [("error", VStr "Missing 'error' field")])))
  /\ (truthy error_msg = true ->
      forall help, analyze_error collab error_msg = Return help ->
      eval (do_POST collab lib self (Some header) rfile) w
      = Return (Response 200 (json_headers self) help)).
Proof.
  intros Hint Hpos Hdecode Hbody Hjson Hpath error_msg. unfold eval.
  rewrite (do_POST_parsed self header rfile w n body (VDict fields)
             Hint Hpos Hdecode Hbody Hjson Hpath).
  cbn [value_get]. fold error_msg. split.
  - intros Hfalsy. rewrite Hfalsy. reflexivity.
  - intros Htruthy help Hhelp. rewrite Htruthy. cbn [negb].
    unfold get_error_help, _send_json, log_message, bind, get, modify, lift, ret.
    cbn. rewrite Hhelp. reflexivity.
Qed.

(** C6, at the input where the code departs from it.  A body that is
    well-formed JSON but not an object (an array, a string, a number,
    [null]) has no "error" field, yet the handler does not answer 400: it
    calls [.get] on the parsed value, [AttributeError] leaves [do_POST], and
    no response is sent. *)
Theorem do_POST_error_help_non_object (self : handler) (header : string)
    (rfile : list Byte.byte) (w : world) (n : Z) (body : string) (data : value) :
  path self = "/error-help" ->
  int_of_str lib header = Return n ->
  0 < n ->
  decode lib (firstn (Z.to_nat n) rfile) = Return body ->
  body <> "" ->
  json_loads lib body = Return data ->
  (forall fields, data <> VDict fields) ->
  do_POST collab lib self (Some header) rfile w
  = (Raise (AttributeError
              ("'" ++ type_name data ++ "' object has no attribute 'get'")), w).
Proof.
  intros Hpath Hint Hpos Hdecode Hbody Hjson Hshape.
  rewrite (do_POST_parsed self header rfile w n body data
             Hint Hpos Hdecode Hbody Hjson Hpath).
  destruct data; try reflexivity. now destruct (Hshape fields).
Qed.

End Post.

(** The body [[]] sent to the sample server. *)
Lemma do_POST_error_help_non_object_witness :
  do_POST Samples.collab Samples.codec (Samples.handler_for "POST" "/error-help")
    (Some "2") (list_byte_of_string "[]") init_world
  = (Raise (AttributeError "'list' object has no attribute 'get'"), init_world).
Proof.
  apply (do_POST_error_help_non_object Samples.collab Samples.codec
           (Samples.handler_for "POST" "/error-help") "2"
           (list_byte_of_string "[]") init_world 2 "[]" (VList [])).
  - reflexivity.
  - reflexivity.
  - lia.
  - reflexivity.
  - discriminate.
  - reflexivity.
  - discriminate.
Defined.

Section Get.

Variable cfg : config.
Variable fmt : clock_format.
Variable collab : collaborators.

(** [GET /logs]: an empty list when there is no log file, otherwise the
    last 50 pieces of the text cut at every newline. *)
Lemma do_GET_logs (self : handler) (now_uptime now_current : datetime)
    (log_file : option string) (w : world) :
  path self = "/logs" ->
  do_GET cfg fmt collab self now_uptime now_current (option_map Return log_file) w
  = (Return (Response 200 (json_headers self)
               (VDict [("logs",
                        VList match log_file with
                              | Some text =>
                                  map VStr (last_items 50 (split newline text))
                              | None => []
                              end)])), answered self w).
Proof.
  intros Hpath. unfold do_GET. rewrite Hpath.
  cbn [String.eqb Ascii.eqb Bool.eqb orb String.prefix].
  destruct log_file; reflexivity.
Qed.

Lemma split_line (line rest : string) :
  Samples.one_line line = true ->
  split newline (line ++ String newline rest) = line :: split newline rest.
Proof.
  induction line as [| c line IH]; intros Hline.
  - reflexivity.
  - cbn [Samples.one_line] in Hline. apply andb_prop in Hline as [Hc Hline].
    apply negb_true_iff in Hc.
    change (String c line ++ String newline rest)
      with (String c (line ++ String newline rest)).
    cbn [split]. rewrite Hc, (IH Hline). reflexivity.
Qed.

(** A file of newline-ended lines cuts into those lines and one empty
    piece. *)
Lemma split_file_of_lines (lines : list string) :
  forallb Samples.one_line lines = true ->
  split newline (Samples.file_of_lines lines) = (lines ++ [""])%list.
Proof.
  induction lines as [| line rest IH]; intros Hlines; [reflexivity |].
  cbn [forallb] in Hlines. apply andb_prop in Hlines as [Hline Hrest].
  cbn [Samples.file_of_lines]. rewrite (split_line _ _ Hline), (IH Hrest).
  reflexivity.
Qed.

(** C8, at the input where the code departs from it.  For a log file of
    100 lines, each ended by a newline, [GET /logs] answers 200 with the
    last 49 lines followed by an empty string, which is not the last 50
    lines of the file: cutting at newlines leaves an empty piece after the
    final newline, and that piece takes one of the 50 places. *)
Theorem do_GET_logs_hundred_lines (self : handler)
    (now_uptime now_current : datetime) (w : world) :
  path self = "/logs" ->
  let lines := Samples.numbered_lines 100 in
  do_GET cfg fmt collab self now_uptime now_current
    (Some (Return (Samples.file_of_lines lines))) w
  = (Return (Response 200 (json_headers self)
               (VDict [("logs", VList (map VStr (skipn 51 lines ++ [""])))])),
     answered self w)
  /\ length (skipn 51 lines) = 49%nat
  /\ (skipn 51 lines ++ [""])%list <> last_items 50 lines.
Proof.
  intros Hpath lines.
  pose proof (do_GET_logs self now_uptime now_current
                (Some (Samples.file_of_lines lines)) w Hpath) as Hlogs.
  cbn [option_map] in Hlogs. rewrite Hlogs. clear Hlogs.
  split; [| split].
  - assert (Hcut : last_items 50 (split newline (Samples.file_of_lines lines))
                   = (skipn 51 lines ++ [""])%list)
      by (vm_compute; reflexivity).
    now rewrite Hcut.
  - reflexivity.
  - vm_compute. discriminate.
Qed.

End Get.

(** The request [GET /logs HTTP/1.1] sent to the sample server. *)
Lemma do_GET_logs_hundred_lines_witness :
  eval (do_GET Samples.cfg Samples.fmt Samples.collab
          (Samples.handler_for "GET" "/logs") 0 0
          (Some (Return (Samples.file_of_lines (Samples.numbered_lines 100)))))
    init_world
  = Return (Response 200 (json_headers (Samples.handler_for "GET" "/logs"))
              (VDict [("logs",
                       VList (map VStr (skipn 51 (Samples.numbered_lines 100)
                                          ++ [""]))%list)])).
Proof.
  unfold eval.
  rewrite (proj1 (do_GET_logs_hundred_lines Samples.cfg Samples.fmt Samples.collab
                    (Samples.handler_for "GET" "/logs") 0 0 init_world eq_refl)).
  reflexivity.
Defined.

End HttpProps.


(* ====================================================================== *)
(** ** Further properties of the bot *)
(* ====================================================================== *)

Module BotMore.

Import Main Calls Views.

Section Bot.

Variable cfg : config.
Variable fmt : clock_format.
Variable collab : collaborators.

(** X1.  [get_status] only reads: it returns, leaves the bot and the log as
    they were, and reports the bot's own status, task count and start time,
    with the up-time text [get_uptime] gives for the same clock reading. *)
Theorem get_status_reads_only (now_uptime now_current : datetime) (w : world) :
  exists st,
    get_status cfg fmt now_uptime now_current w = (Return st, w)
    /\ st_name st = BOT_NAME cfg
    /\ st_status st = status (bot w)
    /\ st_tasks_processed st = task_count (bot w)
    /\ st_start_time st = option_map (isoformat fmt) (start_time (bot w))
    /\ st_current_time st = isoformat fmt now_current
    /\ eval (get_uptime now_uptime) w = Return (st_uptime st)
    /\ (st_uptime st = "Not started" <-> start_time (bot w) = None).
Proof.
  destruct (BotProps.get_uptime_run now_uptime w) as [text Hrun].
  unfold get_status, bind at 1, get. unfold bind. rewrite Hrun.
  eexists. split; [reflexivity |]. cbn.
  repeat (split; [reflexivity |]).
  assert (Heval : eval (get_uptime now_uptime) w = Return text)
    by (unfold eval; now rewrite Hrun).
  split; [exact Heval |].
  revert Heval. unfold eval, get_uptime, bind, get, ret, divmod.
  destruct (start_time (bot w)) as [t |]; cbn; intros [= <-].
  - split; [| discriminate]. intros Habs.
    now apply BotProps.uptime_text_started in Habs.
  - tauto.
Qed.

Lemma last_start_snoc (calls : list call) (c : call) :
  last_start (calls ++ [c])%list
  = match c with Start now => Some now | _ => last_start calls end.
Proof. unfold last_start. rewrite fold_left_app. reflexivity. Qed.

(** X2.  The start time (from which [get_uptime] counts) is the clock
    reading of the most recent [start()], whatever calls came before or
    after it: a second [start()] moves it, and [stop()] and the other calls
    leave it where it is. *)
Theorem start_time_is_last_start (calls : list call) :
  start_time (bot (perform_all cfg fmt collab init_world calls)) = last_start calls.
Proof.
  induction calls as [| c calls' IH] using rev_ind; [reflexivity |].
  rewrite BotProps.perform_all_snoc, BotProps.perform_start_time, last_start_snoc.
  destruct c; try exact IH; reflexivity.
Qed.

Lemma analyze_project_keeps_lifecycle (path : value) (w : world) :
  let b := bot (exec (analyze_project collab path) w) in
  running b = running (bot w) /\ status b = status (bot w).
Proof.
  unfold exec, analyze_project, bind, get, modify, lift, ret. simpl.
  destruct (analyze_path collab path) as [results | e]; [| split; reflexivity].
  destruct (bump_results _ results); split; reflexivity.
Qed.

Lemma get_error_help_keeps_lifecycle (msg : value) (w : world) :
  let b := bot (exec (get_error_help collab msg) w) in
  running b = running (bot w) /\ status b = status (bot w).
Proof.
  unfold exec, get_error_help, bind, get, modify, lift. simpl.
  destruct (analyze_error collab msg); split; reflexivity.
Qed.

Lemma perform_keeps_lifecycle (w : world) (c : call) :
  is_lifecycle c = false ->
  let b := bot (perform cfg fmt collab w c) in
  running b = running (bot w)
  /\ status b = status (bot w)
  /\ start_time b = start_time (bot w).
Proof.
  intros Hc b. assert (Hst := BotProps.perform_start_time cfg fmt collab w c).
  subst b.
  destruct c as [now | | now | now_uptime now_current | project | error_message
                 | readings];
    try discriminate; cbn [perform] in *.
  - rewrite BotProps.get_uptime_keeps_world. auto.
  - rewrite BotProps.get_status_keeps_world. auto.
  - destruct (analyze_project_keeps_lifecycle project w). auto.
  - destruct (get_error_help_keeps_lifecycle error_message w). auto.
  - rewrite BotProps.heartbeat_keeps_bot. auto.
Qed.

Lemma perform_consistent (w : world) (c : call) :
  consistent (bot w) -> consistent (bot (perform cfg fmt collab w c)).
Proof.
  intros (Hrun & Hinit & Hstarted & Hthree).
  destruct (is_lifecycle c) eqn:Hc.
  - destruct c; try discriminate; unfold consistent; cbn.
    + repeat split; auto; try discriminate.
    + repeat split; auto; try discriminate.
  - destruct (perform_keeps_lifecycle w c Hc) as (Hr & Hs & Ht).
    unfold consistent. rewrite Hr, Hs, Ht. auto.
Qed.

(** X3.  On a bot driven from its initial state by any calls, the
    lifecycle fields stay coherent: [running] is true exactly when the
    status is "running"; the status is one of "initialized", "running" and
    "stopped"; a bot still "initialized" has no start time and a "running"
    one has. *)
Theorem lifecycle_consistent (calls : list call) :
  consistent (bot (perform_all cfg fmt collab init_world calls)).
Proof.
  induction calls as [| c calls' IH] using rev_ind.
  - unfold consistent. cbn. repeat split; auto; discriminate.
  - rewrite BotProps.perform_all_snoc. now apply perform_consistent.
Qed.

(** X7.  [analyze_project] brackets its work in the log: when it returns
    a summary the log has gained the STARTED record and then the COMPLETED
    record that carries the summary's issue count; when it raises (in the
    collaborator or on an unknown severity) the log has gained the STARTED
    record only. *)
Theorem analyze_project_log (path : value) (w : world) :
  match eval (analyze_project collab path) w with
  | Return sm =>
      log (exec (analyze_project collab path) w)
      = (log w ++ [Operation "analyze_project" "STARTED" path;
                   Operation "analyze_project" "COMPLETED"
                     (VStr (str_int (total_issues sm) ++ " issues found"))])%list
  | Raise _ =>
      log (exec (analyze_project collab path) w)
      = (log w ++ [Operation "analyze_project" "STARTED" path])%list
  end.
Proof.
  unfold eval, exec, analyze_project, bind, get, modify, lift, ret. simpl.
  destruct (analyze_path collab path) as [results | e]; [| reflexivity].
  destruct (bump_results _ results); cbn; [| reflexivity].
  unfold log_operation. now rewrite <- app_assoc.
Qed.





(** X6.  A terminating signal stops the bot and exits with status 0:
    [signal_handler] logs "Received signal <n>, shutting down...", then the
    two records of [stop]; after it the status is "stopped", [running] is
    false, the task count and the start time are as before, and a heartbeat
    loop that makes its next test ends there. *)
Theorem signal_handler_stops (signum : Z) (w : world) :
  let w' := exec (signal_handler cfg signum) w in
  eval (signal_handler cfg signum) w = Return 0
  /\ status (bot w') = "stopped"
  /\ running (bot w') = false
  /\ task_count (bot w') = task_count (bot w)
  /\ start_time (bot w') = start_time (bot w)
  /\ log w'
     = (log w
        ++ [Info ("Received signal " ++ str_int signum ++ ", shutting down...");
            Operation "bot_stop" "SUCCESS" (VStr (BOT_NAME cfg ++ " stopped"));
            Info (BOT_NAME cfg ++ " Bot stopped")])%list
  /\ forall now later, heartbeat (now :: later) w' = (Return true, w').
Proof.
  cbn. split; [reflexivity |]. split; [reflexivity |]. split; [reflexivity |].
  split; [reflexivity |]. split; [reflexivity |]. split; [| reflexivity].
  unfold log_operation, info. now rewrite <- !app_assoc.
Qed.

End Bot.


End BotMore.


(* ====================================================================== *)
(** ** Further properties of the HTTP handler *)
(* ====================================================================== *)

Module HttpMore.

Import Main Views.

Lemma substring_all (s : string) : String.substring 0 (String.length s) s = s.
Proof. induction s as [| c s IH]; [reflexivity |]. cbn. now rewrite IH. Qed.

Lemma drop_chars_app (p s : string) : drop_chars (String.length p) (p ++ s) = s.
Proof.
  unfold drop_chars. induction p as [| c p IH].
  - cbn. rewrite Nat.sub_0_r. apply substring_all.
  - cbn. exact IH.
Qed.

Lemma prefix_app (p s : string) : String.prefix p (p ++ s) = true.
Proof.
  induction p as [| c p IH]; [now destruct s |].
  change (String c p ++ s) with (String c (p ++ s)). cbn [String.prefix].
  destruct (ascii_dec c c) as [_ | Hneq]; [exact IH | now destruct Hneq].
Qed.

Section Handler.

Variable cfg : config.
Variable fmt : clock_format.
Variable collab : collaborators.
Variable lib : codec.




(** X9.  [GET /analyze/<rest>] analyses exactly the text after the ninth
    character, whatever it is (empty, with further slashes, with a query
    string): the request is the call [analyze_project(rest)] followed by a
    200 response, so an analyzer that raises leaves the request without a
    response while the task is still counted. *)
Theorem do_GET_analyze_suffix (self : handler) (rest : string)
    (now_uptime now_current : datetime) (log_file : option (result string))
    (w : world) :
  path self = "/analyze/" ++ rest ->
  do_GET cfg fmt collab self now_uptime now_current log_file w
  = (result <- analyze_project collab (VStr rest) ;;
     _send_json self (summary_value result) 200) w
  /\ (forall e, analyze_path collab (VStr rest) = Raise e ->
      eval (do_GET cfg fmt collab self now_uptime now_current log_file) w = Raise e)
  /\ task_count (bot (exec (do_GET cfg fmt collab self now_uptime now_current
                             log_file) w))
     = task_count (bot w) + 1.
Proof.
  intros Hpath.
  assert (Hrun :
    do_GET cfg fmt collab self now_uptime now_current log_file w
    = (result <- analyze_project collab (VStr rest) ;;
       _send_json self (summary_value result) 200) w).
  { unfold do_GET. rewrite Hpath.
    change (String.prefix "/analyze/" ("/analyze/" ++ rest))
      with (String.prefix "" rest).
    replace (String.prefix "" rest) with true by (now destruct rest).
    change 9%nat with (String.length "/analyze/").
    rewrite drop_chars_app. reflexivity. }
  split; [exact Hrun |]. split.
  - intros e He. unfold eval. rewrite Hrun.
    unfold analyze_project, bind, get, modify, lift, ret. cbn. now rewrite He.
  - unfold exec. rewrite Hrun. unfold bind at 1.
    pose proof (BotProps.analyze_project_task_count collab (VStr rest) w) as Hcount.
    unfold exec in Hcount.
    destruct (analyze_project collab (VStr rest) w) as [[sm | e] w']; exact Hcount.
Qed.




(** X12.  What [do_POST] does not catch.  A [Content-Length] that [int]
    rejects, a body that cannot be decoded, and a failure of [json.loads]
    other than [JSONDecodeError] each leave the handler as an exception: no
    response is sent, and the bot and the log stay as they were. *)
Theorem do_POST_uncaught (self : handler) (header : string)
    (rfile : list Byte.byte) (w : world) (e : exception) :
  (int_of_str lib header = Raise e ->
   do_POST collab lib self (Some header) rfile w = (Raise e, w))
  /\ (forall n,
        int_of_str lib header = Return n -> 0 < n ->
        decode lib (firstn (Z.to_nat n) rfile) = Raise e ->
        do_POST collab lib self (Some header) rfile w = (Raise e, w))
  /\ (forall n body,
        int_of_str lib header = Return n -> 0 < n ->
        decode lib (firstn (Z.to_nat n) rfile) = Return body ->
        body <> "" ->
        json_loads lib body = Raise e ->
        (forall msg, e <> JSONDecodeError msg) ->
        do_POST collab lib self (Some header) rfile w = (Raise e, w)).
Proof.
  split; [| split].
  - intros Hint. unfold do_POST. unfold bind at 1, lift at 1. now rewrite Hint.
  - intros n Hint Hpos Hdecode.
    unfold do_POST. unfold bind at 1, lift at 1. rewrite Hint.
    apply Z.ltb_lt in Hpos. rewrite Hpos.
    unfold bind at 1, lift at 1. now rewrite Hdecode.
  - intros n body Hint Hpos Hdecode Hbody Hjson Hother.
    unfold do_POST, try_except. unfold bind at 1, lift at 1. rewrite Hint.
    apply Z.ltb_lt in Hpos. rewrite Hpos.
    unfold bind at 1, lift at 1. rewrite Hdecode.
    apply String.eqb_neq in Hbody. rewrite Hbody. cbn [negb].
    unfold bind at 1. unfold bind at 1, lift at 1. rewrite Hjson.
    destruct e; try reflexivity. now destruct (Hother msg).
Qed.


Lemma reads_only_ret {A} (a : A) : reads_only (ret a).
Proof. intros w. reflexivity. Qed.

Lemma reads_only_lift {A} (r : result A) : reads_only (lift r).
Proof. intros w. reflexivity. Qed.

Lemma reads_only_bind {A B} (m : M world A) (k : A -> M world B) :
  reads_only m -> (forall a, reads_only (k a)) -> reads_only (bind m k).
Proof.
  intros Hm Hk w. specialize (Hm w). unfold exec, bind in *.
  destruct (m w) as [[a | e] w']; cbn in Hm; subst w'; [apply Hk | reflexivity].
Qed.

Lemma reads_only_try_except {A} (m : M world A)
    (handles : exception -> option (M world A)) :
  reads_only m ->
  (forall e h, handles e = Some h -> reads_only h) ->
  reads_only (try_except m handles).
Proof.
  intros Hm Hh w. specialize (Hm w). unfold exec, try_except in *.
  destruct (m w) as [[a | e] w']; cbn in Hm; subst w'; [reflexivity |].
  destruct (handles e) as [h |] eqn:He; [exact (Hh e h He w) | reflexivity].
Qed.

Lemma reads_only_get_status (now_uptime now_current : datetime) :
  reads_only (get_status cfg fmt now_uptime now_current).
Proof. intros w. apply BotProps.get_status_keeps_world. Qed.

Lemma logs_only_send (self : handler) (data : value) (status : Z) :
  logs_only (_send_json self data status).
Proof. intros w. split; [reflexivity |]. now eexists. Qed.

Lemma served_refl (w : world) : served w w.
Proof.
  unfold served. repeat split; auto. exists []. now rewrite app_nil_r.
Qed.

Lemma serves_reads_only {A} (m : M world A) : reads_only m -> serves m.
Proof. intros Hm w. rewrite (Hm w). apply served_refl. Qed.

Lemma serves_logs_only {A} (m : M world A) : logs_only m -> serves m.
Proof.
  intros Hm w. destruct (Hm w) as [Hbot Hlog]. unfold served. rewrite Hbot.
  repeat split; auto.
Qed.

Lemma serves_after {A B} (m : M world A) (k : A -> M world B) :
  reads_only m -> (forall a, serves (k a)) -> serves (bind m k).
Proof.
  intros Hm Hk w. specialize (Hm w). unfold exec, bind in *.
  destruct (m w) as [[a | e] w']; cbn in Hm; subst w';
    [apply Hk | apply served_refl].
Qed.

Lemma serves_then {A B} (m : M world A) (k : A -> M world B) :
  serves m -> (forall a, logs_only (k a)) -> serves (bind m k).
Proof.
  intros Hm Hk w. specialize (Hm w). unfold exec, bind in *.
  destruct (m w) as [[a | e] w']; cbn in Hm; [| exact Hm].
  destruct (Hk a w') as [Hbot [more' Hlog]]. unfold exec in Hbot, Hlog.
  destruct Hm as (Hrun & Hstatus & Hstart & Hcount & more & Hmore).
  unfold served. rewrite Hbot, Hlog, Hmore.
  split; [exact Hrun |]. split; [exact Hstatus |]. split; [exact Hstart |].
  split; [exact Hcount |]. exists (more ++ more')%list. now rewrite app_assoc.
Qed.

Lemma serves_analyze_project (project : value) :
  serves (analyze_project collab project).
Proof.
  intros w. unfold served, exec, analyze_project, bind, get, modify, lift, ret.
  cbn. destruct (analyze_path collab project) as [results | e]; cbn.
  - destruct (bump_results _ results); cbn; repeat split; auto.
    + rewrite <- app_assoc. now eexists.
    + now eexists.
  - repeat split; auto. now eexists.
Qed.

Lemma serves_get_error_help (msg : value) : serves (get_error_help collab msg).
Proof.
  intros w. unfold served, exec, get_error_help, bind, get, modify, lift.
  cbn. destruct (analyze_error collab msg); cbn; repeat split; auto;
    exists []; now rewrite app_nil_r.
Qed.

Lemma serves_status_then_send (self : handler) (now_uptime now_current : datetime)
    (body : BotStatus -> value) :
  serves (st <- get_status cfg fmt now_uptime now_current ;;
          _send_json self (body st) 200).
Proof.
  apply serves_after; [apply reads_only_get_status |].
  intros st. apply serves_logs_only, logs_only_send.
Qed.

Lemma do_GET_serves (self : handler) (now_uptime now_current : datetime)
    (log_file : option (result string)) :
  serves (do_GET cfg fmt collab self now_uptime now_current log_file).
Proof.
  unfold do_GET.
  destruct (String.eqb (path self) "/" || String.eqb (path self) "/health").
  { apply (serves_status_then_send self now_uptime now_current
             (fun st => VDict [("status", VStr "healthy"); ("bot", status_value st)])). }
  destruct (String.eqb (path self) "/status").
  { apply (serves_status_then_send self now_uptime now_current status_value). }
  destruct (String.eqb (path self) "/analyze").
  { apply serves_then; [apply serves_analyze_project | intros; apply logs_only_send]. }
  destruct (String.prefix "/analyze/" (path self)).
  { apply serves_then; [apply serves_analyze_project | intros; apply logs_only_send]. }
  destruct (String.eqb (path self) "/logs").
  { destruct log_file as [read_text |].
    - apply serves_after; [apply reads_only_lift |].
      intros text. apply serves_logs_only, logs_only_send.
    - apply serves_logs_only, logs_only_send. }
  apply serves_logs_only, logs_only_send.
Qed.

Lemma do_POST_serves (self : handler) (content_length_header : option string)
    (rfile : list Byte.byte) :
  serves (do_POST collab lib self content_length_header rfile).
Proof.
  unfold do_POST.
  apply serves_after; [apply reads_only_lift | intros content_length].
  apply serves_after.
  { destruct (Z.ltb 0 content_length); [apply reads_only_lift | apply reads_only_ret]. }
  intros body. apply serves_after.
  { apply reads_only_try_except.
    - apply reads_only_bind; [| intros; apply reads_only_ret].
      destruct (negb (String.eqb body ""));
        [apply reads_only_lift | apply reads_only_ret].
    - intros e h He. destruct e; try discriminate.
      injection He as <-. apply reads_only_ret. }
  intros [data |]; [| apply serves_logs_only, logs_only_send].
  destruct (String.eqb (path self) "/error-help").
  { apply serves_after; [apply reads_only_lift | intros error_msg].
    destruct (negb (truthy error_msg)).
    - apply serves_logs_only, logs_only_send.
    - apply serves_then; [apply serves_get_error_help | intros; apply logs_only_send]. }
  destruct (String.eqb (path self) "/analyze").
  { apply serves_after; [apply reads_only_lift | intros project].
    apply serves_then; [apply serves_analyze_project | intros; apply logs_only_send]. }
  apply serves_logs_only, logs_only_send.
Qed.

(** X14.  No HTTP request can start or stop the bot.  Whatever the
    method's inputs (any path, any headers, any body, any log file) and
    whether the handler answers or raises, [running], [status] and
    [start_time] stay as they were, the task counter stays or goes up by
    exactly one, and the log only gains records at its end. *)
Theorem requests_only_count_tasks (self : handler) (now_uptime now_current : datetime)
    (log_file : option (result string)) (content_length_header : option string)
    (rfile : list Byte.byte) :
  serves (do_GET cfg fmt collab self now_uptime now_current log_file)
  /\ serves (do_POST collab lib self content_length_header rfile).
Proof.
  split.
  - apply do_GET_serves.
  - apply do_POST_serves.
Qed.

Lemma split_not_nil (sep : ascii) (s : string) : split sep s <> [].
Proof.
  destruct s as [| c s]; cbn; [discriminate |].
  destruct (Ascii.eqb c sep); [discriminate |].
  destruct (split sep s); discriminate.
Qed.





End Handler.


(** A path the sample analyzer does not know. *)
Lemma do_GET_analyze_suffix_witness :
  eval (do_GET Samples.cfg Samples.fmt Samples.collab
          (Samples.handler_for "GET" "/analyze/nowhere") 0 0 None)
    init_world
  = Raise (FileNotFoundError "nowhere").
Proof.
  exact (proj1 (proj2 (do_GET_analyze_suffix Samples.cfg Samples.fmt Samples.collab
                         (Samples.handler_for "GET" "/analyze/nowhere") "nowhere"
                         0 0 None init_world eq_refl))
           (FileNotFoundError "nowhere") eq_refl).
Defined.



(** Three requests to the strict sample server: a [Content-Length] that is
    not a number, a body with a byte above 127, and a body that opens two
    arrays. *)
Lemma do_POST_uncaught_witness :
  do_POST Samples.collab Samples.strict_codec (Samples.handler_for "POST" "/analyze")
    (Some "ten") [] init_world
  = (Raise (ValueError "invalid literal for int()"), init_world)
  /\ do_POST Samples.collab Samples.strict_codec
       (Samples.handler_for "POST" "/analyze") (Some "1") [Byte.xff] init_world
     = (Raise (UnicodeDecodeError "'utf-8' codec can't decode byte"), init_world)
  /\ do_POST Samples.collab Samples.strict_codec
       (Samples.handler_for "POST" "/analyze") (Some "2")
       (list_byte_of_string "[[") init_world
     = (Raise (OtherException "RecursionError" "maximum recursion depth exceeded"),
        init_world).
Proof.
  split; [| split].
  - exact (proj1 (do_POST_uncaught Samples.collab Samples.strict_codec
                    (Samples.handler_for "POST" "/analyze") "ten" [] init_world
                    (ValueError "invalid literal for int()"))
             eq_refl).
  - apply (proj1 (proj2 (do_POST_uncaught Samples.collab Samples.strict_codec
                           (Samples.handler_for "POST" "/analyze") "1" [Byte.xff]
                           init_world
                           (UnicodeDecodeError "'utf-8' codec can't decode byte")))
             1).
    + reflexivity.
    + lia.
    + reflexivity.
  - apply (proj2 (proj2 (do_POST_uncaught Samples.collab Samples.strict_codec
                           (Samples.handler_for "POST" "/analyze") "2"
                           (list_byte_of_string "[[") init_world
                           (OtherException "RecursionError"
                              "maximum recursion depth exceeded")))
             2 "[[").
    + reflexivity.
    + lia.
    + reflexivity.
    + discriminate.
    + reflexivity.
    + discriminate.
Defined.



End HttpMore.


(* ====================================================================== *)
(** ** Further properties of the command executor and the dependency manager *)
(* ====================================================================== *)

Module ManagerMore.

Import Subprocess Manager Views.

Section Host.

Variable h : host.

(** X16.  What one call of [CommandExecutor.run] leaves behind, whatever
    the command does: exactly one call of [subprocess.run], through the
    shell, in [cwd] or else in [BASE_DIR]; nothing printed; and exactly two
    log records, STARTED and then one that tells the outcome.  The outcome
    record is SUCCESS with exit code 0 exactly when [run] reports success;
    otherwise it is FAILED with the non-zero exit code, or an error
    record. *)
Theorem run_footprint (command : string) (cwd : option string) (timeout : Z)
    (w : world) :
  let w' := exec (run h command cwd timeout) w in
  exists fate outcome,
    calls w' = (calls w ++ [Call (Shell command)
                              (Some (default (BASE_DIR h) cwd)) fate])%list
    /\ printed w' = printed w
    /\ log w' = (log w ++ [Operation "command_execute" "STARTED" (VStr command);
                           outcome])%list
    /\ match eval (run h command cwd timeout) w with
       | Return (true, _, _) =>
           fate = Exited 0
           /\ outcome = Operation "command_execute" "SUCCESS" (VStr "Exit code: 0")
       | Return (false, _, _) =>
           (exists rc, rc <> 0 /\ fate = Exited rc
                       /\ outcome = Operation "command_execute" "FAILED"
                                      (VStr ("Exit code: " ++ str_int rc)))
           \/ (exists e, outcome = Error "command_execute" e
                         /\ (fate = Killed \/ exists e', fate = Failed e'))
       | Raise _ => False
       end.
Proof.
  unfold eval, exec, run, try_except, bind, modify, subprocess_run, Subprocess.run, ret.
  cbn [on_log log calls printed left_running].
  destruct (os h (Shell command) (Some (default (BASE_DIR h) cwd)))
    as [duration rc out err | duration rc msg | e].
  - destruct (expired (Some timeout) duration); cbn.
    + eexists _, _. split; [reflexivity |]. split; [reflexivity |].
      split; [unfold log_operation, log_error; now rewrite <- app_assoc |].
      right. eexists. split; [reflexivity | now left].
    + eexists _, _. split; [reflexivity |]. split; [reflexivity |].
      split; [unfold log_operation; now rewrite <- app_assoc |].
      destruct (Z.eqb rc 0) eqn:Hrc.
      * apply Z.eqb_eq in Hrc. subst rc. split; reflexivity.
      * apply Z.eqb_neq in Hrc. left. exists rc. repeat split. exact Hrc.
  - destruct (expired (Some timeout) duration); cbn.
    + eexists _, _. split; [reflexivity |]. split; [reflexivity |].
      split; [unfold log_operation, log_error; now rewrite <- app_assoc |].
      right. eexists. split; [reflexivity | now left].
    + eexists _, _. split; [reflexivity |]. split; [reflexivity |].
      split; [unfold log_operation, log_error; now rewrite <- app_assoc |].
      right. eexists. split; [reflexivity |]. right. eexists. reflexivity.
  - destruct e; cbn; eexists _, _;
      (split; [reflexivity |]); (split; [reflexivity |]);
      (split; [unfold log_operation, log_error; now rewrite <- app_assoc |]);
      right; eexists; (split; [reflexivity |]); right; eexists; reflexivity.
Qed.

(** X17.  [install_package] by what pip does.  It hands pip the package
    name as one argument, without a timeout and without looking for a
    requirements file.  Exit status zero: [True], logged STARTED then
    SUCCESS.  Any other exit status: [False], logged STARTED then the
    [CalledProcessError].  A failure to run pip at all is not caught: the
    exception leaves [install_package] with only STARTED logged; and so
    does output of pip that cannot be decoded.  Nothing is printed in any
    case. *)
Theorem install_package_outcome (package : string) (w : world) :
  let cmd := Argv (package_command h package) in
  let started := Operation "install_package" "STARTED" (VStr package) in
  let w' := exec (install_package h package) w in
  printed w' = printed w
  /\ match os h cmd None with
     | Runs duration rc out err =>
         calls w' = (calls w ++ [Call cmd None (Exited rc)])%list
         /\ if Z.eqb rc 0 then
              eval (install_package h package) w = Return true
              /\ log w' = (log w ++ [started;
                                     Operation "install_package" "SUCCESS"
                                       (VStr package)])%list
            else
              eval (install_package h package) w = Return false
              /\ log w' = (log w ++ [started;
                                     Error "install_package"
                                       (CalledProcessError cmd rc out err)])%list
     | Garbles duration rc msg =>
         calls w' = (calls w ++ [Call cmd None (Failed (UnicodeDecodeError msg))])%list
         /\ eval (install_package h package) w = Raise (UnicodeDecodeError msg)
         /\ log w' = (log w ++ [started])%list
     | Fails e =>
         calls w' = (calls w ++ [Call cmd None (Failed e)])%list
         /\ (is_CalledProcessError e = false ->
             eval (install_package h package) w = Raise e
             /\ log w' = (log w ++ [started])%list)
     end.
Proof.
  unfold package_command.
  unfold eval, exec, install_package, try_except, bind, modify, subprocess_run,
    Subprocess.run, ret.
  cbn [on_log log calls printed left_running expired].
  destruct (os h (Argv [executable h; "-m"; "pip"; "install"; package]) None)
    as [duration rc out err | duration rc msg | e].
  - destruct (Z.eqb rc 0); cbn; repeat split;
      unfold log_operation, log_error; now rewrite <- app_assoc.
  - cbn. repeat split.
  - destruct e; cbn; repeat split; discriminate.
Qed.

(** X18.  [install_dependencies] on an existing requirements file.  pip
    runs once, with [-r <file>] and with [--upgrade] as the last argument
    exactly when [upgrade] is set, and without a timeout.  A non-zero exit
    status gives [False] and prints pip's stderr after "Error output: ";
    exit status zero prints nothing.  A failure to run pip at all is not
    caught, unlike in [CommandExecutor.run]: it leaves the method as an
    exception, with nothing printed; and so does output of pip that cannot
    be decoded. *)
Theorem install_dependencies_effects (self : DependencyManager) (upgrade : bool)
    (w : world) :
  path_exists h (requirements_path self) = true ->
  let argv := ([executable h; "-m"; "pip"; "install"; "-r"; requirements_path self]
               ++ (if upgrade then ["--upgrade"] else []))%list in
  let w' := exec (install_dependencies h self upgrade) w in
  match os h (Argv argv) None with
  | Runs duration rc out err =>
      calls w' = (calls w ++ [Call (Argv argv) None (Exited rc)])%list
      /\ eval (install_dependencies h self upgrade) w = Return (Z.eqb rc 0)
      /\ printed w' = (if Z.eqb rc 0 then printed w
                       else printed w ++ [("Error output: " ++ err)%string])%list
  | Garbles duration rc msg =>
      calls w' = (calls w ++ [Call (Argv argv) None
                                (Failed (UnicodeDecodeError msg))])%list
      /\ eval (install_dependencies h self upgrade) w = Raise (UnicodeDecodeError msg)
      /\ printed w' = printed w
      /\ log w' = (log w ++ [Operation "install_dependencies" "STARTED"
                               (VStr (requirements_path self))])%list
  | Fails e =>
      calls w' = (calls w ++ [Call (Argv argv) None (Failed e)])%list
      /\ (is_CalledProcessError e = false ->
          eval (install_dependencies h self upgrade) w = Raise e
          /\ printed w' = printed w
          /\ log w' = (log w ++ [Operation "install_dependencies" "STARTED"
                                   (VStr (requirements_path self))])%list)
  end.
Proof.
  intros Hexists.
  unfold eval, exec, install_dependencies, try_except, bind, modify, subprocess_run,
    Subprocess.run, ret, print.
  rewrite Hexists. cbn [negb on_log log calls printed left_running expired].
  destruct upgrade; cbn [app];
    match goal with
    | |- context [os h ?c None] =>
        destruct (os h c None) as [duration rc out err | duration rc msg | e]
    end;
    try (destruct (Z.eqb rc 0); cbn; repeat split; fail);
    try (cbn; repeat split; fail);
    destruct e; cbn; repeat split; discriminate.
Qed.

End Host.

Lemma plain_one_line (s : string) :
  plain_text s = true -> Samples.one_line s = true.
Proof.
  induction s as [| c s IH]; [reflexivity |]. cbn [plain_text Samples.one_line].
  intros Hs. apply andb_prop in Hs as [Hc Hs]. rewrite (IH Hs), andb_true_r.
  destruct (Ascii.eqb c Main.newline) eqn:Hnl; [| reflexivity].
  apply Ascii.eqb_eq in Hnl. subst c. discriminate.
Qed.

(** A plain character is no whitespace and opens no whitespace of two or
    three bytes. *)
Lemma plain_not_space (c : ascii) :
  plain c = true ->
  isspace c = false
  /\ (forall c2, isspace2 c c2 = false)
  /\ (forall c2 c3, isspace3 c c2 c3 = false).
Proof.
  unfold plain. intros Hc. apply andb_prop in Hc as [Hascii Hc].
  apply negb_true_iff in Hc. apply Nat.ltb_lt in Hascii.
  split; [exact Hc |]. split.
  - intros c2. unfold isspace2.
    destruct (Nat.eqb_spec (nat_of_ascii c) 194); [lia | reflexivity].
  - intros c2 c3. unfold isspace3.
    destruct (Nat.eqb_spec (nat_of_ascii c) 225); [lia |].
    destruct (Nat.eqb_spec (nat_of_ascii c) 226); [lia |].
    destruct (Nat.eqb_spec (nat_of_ascii c) 227); [lia | reflexivity].
Qed.

Lemma lstrip_plain (c : ascii) (s : string) :
  plain c = true -> lstrip (String c s) = String c s.
Proof.
  intros Hc. destruct (plain_not_space c Hc) as (H1 & H2 & H3).
  cbn [lstrip]. rewrite H1. destruct s as [| c2 s]; [reflexivity |].
  rewrite H2. destruct s as [| c3 s]; [reflexivity |]. now rewrite H3.
Qed.

Lemma rstrip_cons (c : ascii) (s : string) :
  plain c = true -> rstrip (String c s) = String c (rstrip s).
Proof.
  intros Hc. change (rstrip (String c s))
    with (if String.eqb (lstrip (String c s)) "" then EmptyString
          else String c (rstrip s)).
  now rewrite (lstrip_plain c s Hc).
Qed.

Lemma rstrip_plain_app (p t : string) :
  plain_text p = true -> rstrip (p ++ t) = p ++ rstrip t.
Proof.
  induction p as [| c p IH]; intros Hp; [reflexivity |].
  cbn [plain_text] in Hp. apply andb_prop in Hp as [Hc Hp].
  change (String c p ++ t) with (String c (p ++ t)).
  rewrite (rstrip_cons _ _ Hc), (IH Hp). reflexivity.
Qed.

Lemma word_cons (s : string) :
  word s = true ->
  exists c rest, s = String c rest /\ plain c = true /\ plain_text s = true.
Proof.
  unfold word. destruct s as [| c rest]; [discriminate |]. cbn [String.eqb negb andb].
  intros Hs. exists c, rest. split; [reflexivity |]. split; [| exact Hs].
  cbn [plain_text] in Hs. now apply andb_prop in Hs as [Hc _].
Qed.

Lemma app_empty_r (s : string) : s ++ "" = s.
Proof.
  induction s as [| c s IH]; [reflexivity |].
  change (String c s ++ "") with (String c (s ++ "")). now rewrite IH.
Qed.

(** Stripping a text of newline-ended words removes the final newline and
    nothing else. *)
Lemma strip_file_of_lines (line : string) (lines : list string) :
  forallb word (line :: lines) = true ->
  strip (Samples.file_of_lines (line :: lines)) = join Main.newline (line :: lines).
Proof.
  intros Hall. unfold strip.
  assert (Hleft : forall first others,
            word first = true ->
            lstrip (Samples.file_of_lines (first :: others))
            = Samples.file_of_lines (first :: others)).
  { intros first others Hfirst.
    destruct (word_cons first Hfirst) as (c & rest & -> & Hc & _).
    cbn [Samples.file_of_lines].
    change (String c rest ++ ?t) with (String c (rest ++ t)).
    now apply lstrip_plain. }
  assert (Hsome : forall first others,
            word first = true -> Samples.file_of_lines (first :: others) <> "").
  { intros first others Hfirst.
    destruct (word_cons first Hfirst) as (c & rest & -> & _ & _). discriminate. }
  rewrite Hleft by (cbn [forallb] in Hall; now apply andb_prop in Hall as [Hline _]).
  revert line Hall.
  induction lines as [| next lines IH]; intros line Hall.
  - cbn [forallb] in Hall. apply andb_prop in Hall as [Hline _].
    destruct (word_cons line Hline) as (_ & _ & _ & _ & Hns).
    cbn [Samples.file_of_lines join]. rewrite (rstrip_plain_app _ _ Hns).
    cbn. apply app_empty_r.
  - cbn [forallb] in Hall. apply andb_prop in Hall as [Hline Hrest].
    destruct (word_cons line Hline) as (_ & _ & _ & _ & Hns).
    specialize (IH next Hrest).
    assert (Hnext : word next = true)
      by (cbn [forallb] in Hrest; now apply andb_prop in Hrest as [Hnext _]).
    change (Samples.file_of_lines (line :: next :: lines))
      with (line ++ String Main.newline (Samples.file_of_lines (next :: lines))).
    rewrite (rstrip_plain_app _ _ Hns).
    change (join Main.newline (line :: next :: lines))
      with (line ++ String Main.newline (join Main.newline (next :: lines))).
    f_equal.
    change (rstrip (String Main.newline (Samples.file_of_lines (next :: lines))))
      with (if String.eqb (lstrip (Samples.file_of_lines (next :: lines))) ""
            then EmptyString
            else String Main.newline (rstrip (Samples.file_of_lines (next :: lines)))).
    rewrite (Hleft next lines Hnext).
    pose proof (Hsome next lines Hnext) as Hne.
    apply String.eqb_neq in Hne. now rewrite Hne, IH.
Qed.

Lemma split_join (line : string) (lines : list string) :
  forallb Samples.one_line (line :: lines) = true ->
  Main.split Main.newline (join Main.newline (line :: lines)) = line :: lines.
Proof.
  revert line. induction lines as [| next lines IH]; intros line Hall.
  - cbn [forallb] in Hall. apply andb_prop in Hall as [Hline _].
    cbn [join]. rewrite <- (app_empty_r line) at 1.
    induction line as [| c line IHline]; [reflexivity |].
    cbn [Samples.one_line] in Hline. apply andb_prop in Hline as [Hc Hline].
    apply negb_true_iff in Hc.
    change (String c line ++ "") with (String c (line ++ "")).
    cbn [Main.split]. rewrite Hc, (IHline Hline). reflexivity.
  - cbn [forallb] in Hall. apply andb_prop in Hall as [Hline Hrest].
    change (join Main.newline (line :: next :: lines))
      with (line ++ String Main.newline (join Main.newline (next :: lines))).
    rewrite (HttpProps.split_line _ _ Hline), (IH next Hrest). reflexivity.
Qed.

Section Listing.

Variable h : host.

(** X19.  [list_installed] by what pip prints.  The exit status is not
    looked at.  When the output is one or more package lines (non-empty
    words of ASCII characters without whitespace), each ended by a newline,
    the result is exactly those lines, in order.  The result is never the
    empty list: output that is empty or only whitespace gives the
    one-element list with the empty string.  A failure to run pip, and
    output that cannot be decoded, leave the method as an exception. *)
Theorem list_installed_lines (w : world) :
  match os h (Argv (list_command h)) None with
  | Runs duration rc out err =>
      (forall line lines,
         forallb word (line :: lines) = true ->
         out = Samples.file_of_lines (line :: lines) ->
         eval (list_installed h) w = Return (line :: lines))
      /\ (strip out = "" -> eval (list_installed h) w = Return [""])
      /\ (exists first rest, eval (list_installed h) w = Return (first :: rest))
  | Garbles duration rc msg =>
      eval (list_installed h) w = Raise (UnicodeDecodeError msg)
  | Fails e => eval (list_installed h) w = Raise e
  end.
Proof.
  unfold list_command, eval, list_installed, bind, subprocess_run, Subprocess.run, ret.
  cbn [expired andb].
  destruct (os h (Argv [executable h; "-m"; "pip"; "list"; "--format=freeze"]) None)
    as [duration rc out err | duration rc msg | e]; [| reflexivity | reflexivity].
  cbn [fst stdout]. split; [| split].
  - intros line lines Hwords ->.
    rewrite (strip_file_of_lines line lines Hwords), split_join; [reflexivity |].
    clear -Hwords. induction (line :: lines) as [| x xs IH]; [reflexivity |].
    cbn [forallb] in *. apply andb_prop in Hwords as [Hx Hxs].
    rewrite (IH Hxs), andb_true_r. apply plain_one_line.
    unfold word in Hx. now apply andb_prop in Hx as [_ Hx].
  - intros ->. reflexivity.
  - pose proof (HttpMore.split_not_nil Main.newline (strip out)) as Hnil.
    destruct (Main.split Main.newline (strip out)) as [| first rest];
      [now destruct Hnil | now exists first, rest].
Qed.

End Listing.

(** pip on the sample host exits zero for a package. *)
Lemma install_dependencies_effects_witness :
  eval (install_dependencies Samples.host
          (new_DependencyManager Samples.host "requirements.txt") true) init_world
  = Return true
  /\ calls (exec (install_dependencies Samples.host
                    (new_DependencyManager Samples.host "requirements.txt") true)
             init_world)
     = [Call (Argv ["/usr/bin/python3"; "-m"; "pip"; "install"; "-r";
                    "/srv/atena/requirements.txt"; "--upgrade"])
          None (Exited 0)].
Proof.
  pose proof (install_dependencies_effects Samples.host
                (new_DependencyManager Samples.host "requirements.txt") true
                init_world eq_refl) as Heffects.
  cbv zeta in Heffects. cbn in Heffects.
  destruct Heffects as (Hcalls & Heval & _). split; [exact Heval | exact Hcalls].
Defined.

(** A package pip does not know, and a host without an interpreter. *)
Lemma install_package_outcome_witness :
  eval (install_package Samples.pip_host "nonesuch") init_world = Return false
  /\ eval (install_package Samples.bare_host "flask") init_world
     = Raise (FileNotFoundError "No such file or directory").
Proof.
  split.
  - pose proof (install_package_outcome Samples.pip_host "nonesuch" init_world)
      as Houtcome.
    cbv zeta in Houtcome. cbn in Houtcome.
    destruct Houtcome as (_ & _ & Heval & _). exact Heval.
  - pose proof (install_package_outcome Samples.bare_host "flask" init_world)
      as Houtcome.
    cbv zeta in Houtcome. cbn in Houtcome.
    destruct Houtcome as (_ & _ & Hraise). exact (proj1 (Hraise eq_refl)).
Defined.

(** The two packages of the sample host with pip. *)
Lemma list_installed_lines_witness :
  eval (list_installed Samples.pip_host) init_world
  = Return ["flask==3.0.0"; "requests==2.31.0"].
Proof.
  pose proof (list_installed_lines Samples.pip_host init_world) as Hlines.
  cbn in Hlines. destruct Hlines as (Hlines & _).
  apply Hlines; reflexivity.
Defined.

End ManagerMore.


(* ====================================================================== *)
(** ** Properties of the command line of manager.py *)
(* ====================================================================== *)

Module CliProps.

Import Subprocess Manager Cli Views.

Section Cli.

Variable h : host.
Variable code_analyzer : analyzer.
Variable help_text : string.




(** X23.  [manager.py install] in a checkout without [requirements.txt]
    under [BASE_DIR] exits with status 1 and never starts pip, with or
    without [--upgrade]; the log gains the [FileNotFoundError] naming the
    file. *)
Theorem main_install_without_requirements (upgrade : bool) (c : console) :
  path_exists h (path_join (BASE_DIR h) "requirements.txt") = false ->
  let c' := exec (main h code_analyzer help_text (Install upgrade None)) c in
  eval (main h code_analyzer help_text (Install upgrade None)) c = Return (Some 1)
  /\ calls (proc c') = calls (proc c)
  /\ printed (proc c') = printed (proc c)
  /\ log (proc c')
     = (log (proc c)
        ++ [Error "install_dependencies"
              (FileNotFoundError
                 ("Requirements file not found: "
                    ++ path_join (BASE_DIR h) "requirements.txt"))])%list.
Proof.
  intros Hmissing.
  unfold eval, exec, main, in_proc, install_dependencies, new_DependencyManager.
  cbn [requirements_path]. rewrite Hmissing. cbn. auto.
Qed.

End Cli.


(** The bare sample host has no requirements file. *)
Lemma main_install_without_requirements_witness :
  eval (main Samples.bare_host Samples.cli_analyzer "usage" (Install true None))
    init_console
  = Return (Some 1).
Proof.
  exact (proj1 (main_install_without_requirements Samples.bare_host
                  Samples.cli_analyzer "usage" true init_console eq_refl)).
Defined.

End CliProps.


(* ====================================================================== *)
(** ** Properties of the server loop *)
(* ====================================================================== *)

Module ServerProps.

Import Main Views Server.

Section Server.

Variable cfg : config.
Variable fmt : clock_format.
Variable collab : collaborators.
Variable lib : codec.

Lemma handle_served (w : world) (r : request) :
  served w (handle cfg fmt collab lib w r).
Proof.
  destruct r as [path now_uptime now_current log_file | path header rfile].
  - apply HttpMore.do_GET_serves.
  - apply HttpMore.do_POST_serves.
Qed.

Lemma serve_snoc (w : world) (requests : list request) (r : request) :
  serve cfg fmt collab lib w (requests ++ [r])
  = handle cfg fmt collab lib (serve cfg fmt collab lib w requests) r.
Proof. unfold serve. now rewrite fold_left_app. Qed.

(** X24.  The running server keeps the bot's lifecycle.  Whatever
    requests arrive, in whatever order, answered or failed, the bot's
    [running], [status] and [start_time] after them are those before them;
    the task counter has not gone down and has gone up by at most the number
    of requests; and the log has only gained records at its end. *)
Theorem serve_keeps_lifecycle (w : world) (requests : list request) :
  let w' := serve cfg fmt collab lib w requests in
  running (bot w') = running (bot w)
  /\ status (bot w') = status (bot w)
  /\ start_time (bot w') = start_time (bot w)
  /\ task_count (bot w) <= task_count (bot w') <= task_count (bot w) + len requests
  /\ exists more, log w' = (log w ++ more)%list.
Proof.
  induction requests as [| r requests IH] using rev_ind.
  - unfold serve, len. cbn [fold_left length].
    split; [reflexivity |]. split; [reflexivity |]. split; [reflexivity |].
    split; [lia |]. exists []. now rewrite app_nil_r.
  - cbn zeta in *. rewrite serve_snoc.
    destruct IH as (Hrun & Hstatus & Hstart & Hcount & more & Hlog).
    destruct (handle_served (serve cfg fmt collab lib w requests) r)
      as (Hrun' & Hstatus' & Hstart' & Hcount' & more' & Hlog').
    rewrite Hrun', Hstatus', Hstart', Hlog', Hlog.
    split; [exact Hrun |]. split; [exact Hstatus |]. split; [exact Hstart |].
    split.
    + unfold len in *. rewrite length_app. cbn [length]. lia.
    + exists (more ++ more')%list. now rewrite app_assoc.
Qed.


End Server.



End ServerProps.
